(** * RecDexFHE: the confidential batch settlement controller

    A shallow embedding of [contracts/recDEX_FHE.sol] (Solidity ^0.8.24) and
    the properties of its access registry, throttle guard, batch lifecycle
    and decryption request / callback state machine.

    Solidity values are modelled as follows: [address], [uint256] and
    [bytes32] are integers in [Z]; [bytes] is a list of bytes; a [mapping]
    is a finite map read with the type's zero value as default; arithmetic
    is checked (an overflow reverts with [Panic 0x11]); a [revert] aborts
    the call and the transaction keeps the state it started from. *)

From Stdlib Require Import ZArith List Bool Lia.
From Stdlib Require Import Strings.Byte.
From stdpp Require Import base option list gmap sets.

Open Scope Z_scope.

(** ** The platform the contract runs on

    Everything the contract takes from its environment and from the
    [@fhevm/solidity] library, which is not part of this repository: its own
    address, the hash function, the construction of a trivially encrypted
    handle, the proof check of the decryption oracle.  They are deterministic
    functions of their arguments.  [keccak256] takes the ABI encoding as a
    list of 32-byte words. *)
Class Platform := {
  address_this : Z;
  keccak256 : list Z -> Z;
  FHE_asEuint32 : Z -> Z;
  FHE_toBytes32 : Z -> Z;
  FHE_checkSignatures : Z -> list byte -> list byte -> bool;
  myCallback_selector : Z
}.

(** ** Storage *)

Record DecryptionContext := mkContext {
  batchId : Z;
  stateHash : Z;
  processed : bool
}.

(** The value of a mapping slot that was never written. *)
Definition zeroContext : DecryptionContext := mkContext 0 0 false.

(** The contract's state variables, in the order of the source, and
    [issuedRequests]: the request identifiers the decryption oracle has
    handed out so far.  The last field belongs to the oracle, the contract
    never reads it. *)
Record State := mkState {
  owner : Z;
  isProvider : gmap Z bool;
  paused : bool;
  cooldownSeconds : Z;
  lastSubmissionTime : gmap Z Z;
  lastDecryptionRequestTime : gmap Z Z;
  currentBatchId : Z;
  isBatchClosed : gmap Z bool;
  decryptionContexts : gmap Z DecryptionContext;
  issuedRequests : gset Z
}.

(** Reading a mapping: a key that was never written reads as zero. *)
Definition readBool (m : gmap Z bool) (k : Z) : bool := default false (m !! k).
Definition readUint (m : gmap Z Z) (k : Z) : Z := default 0 (m !! k).
Definition readContext (m : gmap Z DecryptionContext) (k : Z) : DecryptionContext :=
  default zeroContext (m !! k).

Definition set_owner (v : Z) (s : State) : State :=
  mkState v (isProvider s) (paused s) (cooldownSeconds s) (lastSubmissionTime s)
    (lastDecryptionRequestTime s) (currentBatchId s) (isBatchClosed s)
    (decryptionContexts s) (issuedRequests s).

Definition set_isProvider (k : Z) (v : bool) (s : State) : State :=
  mkState (owner s) (<[k := v]> (isProvider s)) (paused s) (cooldownSeconds s)
    (lastSubmissionTime s) (lastDecryptionRequestTime s) (currentBatchId s)
    (isBatchClosed s) (decryptionContexts s) (issuedRequests s).

Definition set_paused (v : bool) (s : State) : State :=
  mkState (owner s) (isProvider s) v (cooldownSeconds s) (lastSubmissionTime s)
    (lastDecryptionRequestTime s) (currentBatchId s) (isBatchClosed s)
    (decryptionContexts s) (issuedRequests s).

Definition set_cooldownSeconds (v : Z) (s : State) : State :=
  mkState (owner s) (isProvider s) (paused s) v (lastSubmissionTime s)
    (lastDecryptionRequestTime s) (currentBatchId s) (isBatchClosed s)
    (decryptionContexts s) (issuedRequests s).

Definition set_lastSubmissionTime (k v : Z) (s : State) : State :=
  mkState (owner s) (isProvider s) (paused s) (cooldownSeconds s)
    (<[k := v]> (lastSubmissionTime s)) (lastDecryptionRequestTime s)
    (currentBatchId s) (isBatchClosed s) (decryptionContexts s) (issuedRequests s).

Definition set_lastDecryptionRequestTime (k v : Z) (s : State) : State :=
  mkState (owner s) (isProvider s) (paused s) (cooldownSeconds s)
    (lastSubmissionTime s) (<[k := v]> (lastDecryptionRequestTime s))
    (currentBatchId s) (isBatchClosed s) (decryptionContexts s) (issuedRequests s).

Definition set_currentBatchId (v : Z) (s : State) : State :=
  mkState (owner s) (isProvider s) (paused s) (cooldownSeconds s)
    (lastSubmissionTime s) (lastDecryptionRequestTime s) v (isBatchClosed s)
    (decryptionContexts s) (issuedRequests s).

Definition set_isBatchClosed (k : Z) (v : bool) (s : State) : State :=
  mkState (owner s) (isProvider s) (paused s) (cooldownSeconds s)
    (lastSubmissionTime s) (lastDecryptionRequestTime s) (currentBatchId s)
    (<[k := v]> (isBatchClosed s)) (decryptionContexts s) (issuedRequests s).

Definition set_decryptionContext (k : Z) (v : DecryptionContext) (s : State) : State :=
  mkState (owner s) (isProvider s) (paused s) (cooldownSeconds s)
    (lastSubmissionTime s) (lastDecryptionRequestTime s) (currentBatchId s)
    (isBatchClosed s) (<[k := v]> (decryptionContexts s)) (issuedRequests s).

(** [decryptionContexts[k].processed = v]: the other two fields of the slot
    keep the value they read as. *)
Definition set_processed (k : Z) (v : bool) (s : State) : State :=
  let c := readContext (decryptionContexts s) k in
  set_decryptionContext k (mkContext (batchId c) (stateHash c) v) s.

Definition set_issued (k : Z) (s : State) : State :=
  mkState (owner s) (isProvider s) (paused s) (cooldownSeconds s)
    (lastSubmissionTime s) (lastDecryptionRequestTime s) (currentBatchId s)
    (isBatchClosed s) (decryptionContexts s) ({[k]} ∪ issuedRequests s).

(** The storage of a contract before its constructor has run. *)
Definition zeroState : State :=
  mkState 0 ∅ false 0 ∅ ∅ 0 ∅ ∅ ∅.

(** ** Events and errors *)

Inductive Event :=
| OwnershipTransferred (previousOwner newOwner : Z)
| ProviderAdded (provider : Z)
| ProviderRemoved (provider : Z)
| PauseToggled (flag : bool)
| CooldownSet (seconds : Z)
| BatchOpened (batch : Z)
| BatchClosed (batch : Z)
| EncryptedDataSubmitted (provider batch encryptedData : Z)
| DecryptionRequested (requestId batch : Z)
| DecryptionCompleted (requestId batch : Z) (cleartextValues : list Z).

(** The contract's custom errors, the compiler's arithmetic panic and the
    empty revert of a failed [abi.decode]. *)
Inductive Error :=
| NotOwner
| NotProvider
| Paused
| CooldownActive
| InvalidBatch
| ReplayAttempt
| StateMismatch
| DecryptionFailed
| Panic (code : Z)
| AbiDecodeFailure.

(** ** The transaction monad

    A computation threads the storage and the log of emitted events.  A
    revert keeps the storage as it was when the revert happened, so that one
    can see what had been written by then; [exec] below throws it away. *)

Inductive Result (A : Type) :=
| Return (a : A) (s : State) (log : list Event)
| Revert (e : Error) (s : State).
Arguments Return {A} a s log.
Arguments Revert {A} e s.

Definition Tx (A : Type) : Type := State -> list Event -> Result A.

#[global] Instance Tx_ret : MRet Tx := fun A a s log => Return a s log.

#[global] Instance Tx_bind : MBind Tx := fun A B k m s log =>
  match m s log with
  | Return a s' log' => k a s' log'
  | Revert e s' => Revert e s'
  end.

Definition revert {A : Type} (e : Error) : Tx A := fun s _ => Revert e s.
Definition emit (ev : Event) : Tx unit := fun s log => Return tt s (log ++ [ev]).
Definition sload {A : Type} (f : State -> A) : Tx A := fun s log => Return (f s) s log.
Definition sstore (f : State -> State) : Tx unit := fun s log => Return tt (f s) log.

(** [if (b) revert e();] *)
Definition revertIf (b : bool) (e : Error) : Tx unit :=
  if b then revert e else mret tt.

(** The environment of one external call. [oracle_requestId] is what the
    decryption oracle answers if the call asks it for a decryption. *)
Record Env := mkEnv {
  msg_sender : Z;
  block_timestamp : Z;
  oracle_requestId : Z
}.

(** ** Solidity primitives *)

Definition uint256_max : Z := 2 ^ 256 - 1.

(** [a + b] on [uint256], Solidity 0.8: overflow is [Panic(0x11)]. *)
Definition checked_add (a b : Z) : Tx Z :=
  if a + b <=? uint256_max then mret (a + b) else revert (Panic 17).

(** [abi.encode(cts, addr)] for [bytes32[] cts] and [address addr], as
    32-byte words: the offset of the dynamic array, the address, then the
    array's length and elements. *)
Definition abi_encode (cts : list Z) (addr : Z) : list Z :=
  [64; addr] ++ Z.of_nat (length cts) :: cts.

Definition bytes_to_uint (bs : list byte) : Z :=
  fold_left (fun acc b => acc * 256 + Z.of_N (Byte.to_N b)) bs 0.

(** [abi.decode(data, (uint256))]: reverts when [data] is shorter than one
    word, reads the first word big-endian, ignores what follows. *)
Definition abi_decode_uint256 (data : list byte) : Tx Z :=
  if (length data <? 32)%nat then revert AbiDecodeFailure
  else mret (bytes_to_uint (take 32 data)).

(** ** The contract *)

Section Contract.
Context {P : Platform}.

(** Modelled from the spec: [FHE.requestDecryption(cts, selector)] of the
    external library, "calls the external decryption subsystem once to
    obtain a fresh unique requestId". The oracle answers with the request
    identifier of the environment and records that it has issued it; that the
    answer is fresh is [oracle_fresh] below. *)
Definition FHE_requestDecryption (env : Env) (cts : list Z) (selector : Z) : Tx Z :=
  sstore (set_issued (oracle_requestId env));;
  mret (oracle_requestId env).

(** *** Modifiers *)

Definition onlyOwner (env : Env) : Tx unit :=
  o ← sload owner;
  revertIf (negb (msg_sender env =? o)) NotOwner.

Definition onlyProvider (env : Env) : Tx unit :=
  p ← sload (fun s => readBool (isProvider s) (msg_sender env));
  revertIf (negb p) NotProvider.

Definition whenNotPaused : Tx unit :=
  p ← sload paused;
  revertIf p Paused.

(** *** Constructor and administration *)

Definition constructor (env : Env) : Tx unit :=
  sstore (set_owner (msg_sender env));;
  o ← sload owner;
  sstore (set_isProvider o true);;
  o' ← sload owner;
  emit (ProviderAdded o');;
  sstore (set_cooldownSeconds 60).

Definition transferOwnership (env : Env) (newOwner : Z) : Tx unit :=
  onlyOwner env;;
  previousOwner ← sload owner;
  sstore (set_owner newOwner);;
  emit (OwnershipTransferred previousOwner newOwner).

Definition addProvider (env : Env) (provider : Z) : Tx unit :=
  onlyOwner env;;
  p ← sload (fun s => readBool (isProvider s) provider);
  if negb p then
    (sstore (set_isProvider provider true);;
     emit (ProviderAdded provider) : Tx unit)
  else mret tt.

Definition removeProvider (env : Env) (provider : Z) : Tx unit :=
  onlyOwner env;;
  p ← sload (fun s => readBool (isProvider s) provider);
  if (p : bool) then
    (sstore (set_isProvider provider false);;
     emit (ProviderRemoved provider) : Tx unit)
  else mret tt.

Definition setPaused (env : Env) (_paused : bool) : Tx unit :=
  onlyOwner env;;
  sstore (set_paused _paused);;
  emit (PauseToggled _paused).

Definition setCooldown (env : Env) (_cooldownSeconds : Z) : Tx unit :=
  onlyOwner env;;
  sstore (set_cooldownSeconds _cooldownSeconds);;
  emit (CooldownSet _cooldownSeconds).

(** *** Batches *)

Definition openBatch (env : Env) : Tx unit :=
  onlyOwner env;;
  whenNotPaused;;
  cur ← sload currentBatchId;
  next ← checked_add cur 1;
  sstore (set_currentBatchId next);;
  cur' ← sload currentBatchId;
  sstore (set_isBatchClosed cur' false);;
  cur'' ← sload currentBatchId;
  emit (BatchOpened cur'').

Definition closeBatch (env : Env) (batch : Z) : Tx unit :=
  onlyOwner env;;
  whenNotPaused;;
  cur ← sload currentBatchId;
  revertIf (negb (batch =? cur)) InvalidBatch;;
  sstore (set_isBatchClosed batch true);;
  emit (BatchClosed batch).

(** *** Submissions *)

Definition submitEncryptedData (env : Env) (batch encryptedData : Z) : Tx unit :=
  onlyProvider env;;
  whenNotPaused;;
  last ← sload (fun s => readUint (lastSubmissionTime s) (msg_sender env));
  cd ← sload cooldownSeconds;
  ready ← checked_add last cd;
  revertIf (block_timestamp env <? ready) CooldownActive;;
  closed ← sload (fun s => readBool (isBatchClosed s) batch);
  revertIf closed InvalidBatch;;
  sstore (set_lastSubmissionTime (msg_sender env) (block_timestamp env));;
  emit (EncryptedDataSubmitted (msg_sender env) batch encryptedData).

(** *** Decryption request and callback *)

(** The handle list the request is made for: a one-element array holding
    the handle of the placeholder summary [FHE.asEuint32(0)]. *)
Definition request_cts : list Z :=
  let dummySummary := FHE_asEuint32 0 in
  <[0%nat := FHE_toBytes32 dummySummary]> (replicate 1 0).

(** The handle list the callback rebuilds, from the callback's own code.
    Neither construction reads the batch or the storage. *)
Definition callback_cts : list Z :=
  let dummySummary := FHE_asEuint32 0 in
  <[0%nat := FHE_toBytes32 dummySummary]> (replicate 1 0).

Definition requestBatchSummaryDecryption (env : Env) (batch : Z) : Tx unit :=
  onlyProvider env;;
  whenNotPaused;;
  last ← sload (fun s => readUint (lastDecryptionRequestTime s) (msg_sender env));
  cd ← sload cooldownSeconds;
  ready ← checked_add last cd;
  revertIf (block_timestamp env <? ready) CooldownActive;;
  closed ← sload (fun s => readBool (isBatchClosed s) batch);
  revertIf (negb closed) InvalidBatch;;
  sstore (set_lastDecryptionRequestTime (msg_sender env) (block_timestamp env));;
  let cts := request_cts in
  let hash := keccak256 (abi_encode cts address_this) in
  requestId ← FHE_requestDecryption env cts myCallback_selector;
  sstore (set_decryptionContext requestId (mkContext batch hash false));;
  emit (DecryptionRequested requestId batch).

Definition myCallback (env : Env) (requestId : Z) (cleartexts proof : list byte) : Tx unit :=
  done ← sload (fun s => processed (readContext (decryptionContexts s) requestId));
  revertIf done ReplayAttempt;;
  let cts := callback_cts in
  let currentHash := keccak256 (abi_encode cts address_this) in
  stored ← sload (fun s => stateHash (readContext (decryptionContexts s) requestId));
  revertIf (negb (currentHash =? stored)) StateMismatch;;
  revertIf (negb (FHE_checkSignatures requestId cleartexts proof)) DecryptionFailed;;
  summaryValue ← abi_decode_uint256 cleartexts;
  sstore (set_processed requestId true);;
  batch ← sload (fun s => batchId (readContext (decryptionContexts s) requestId));
  emit (DecryptionCompleted requestId batch [summaryValue]).

(** The fingerprint stored by a request, and the one a callback compares
    the stored one with. *)
Definition requestFingerprint : Z := keccak256 (abi_encode request_cts address_this).
Definition callbackFingerprint : Z := keccak256 (abi_encode callback_cts address_this).

(** ** Transactions *)

Inductive Call :=
| TransferOwnership (newOwner : Z)
| AddProvider (provider : Z)
| RemoveProvider (provider : Z)
| SetPaused (flag : bool)
| SetCooldown (seconds : Z)
| OpenBatch
| CloseBatch (batch : Z)
| SubmitEncryptedData (batch encryptedData : Z)
| RequestBatchSummaryDecryption (batch : Z)
| MyCallback (requestId : Z) (cleartexts proof : list byte).

Definition dispatch (env : Env) (c : Call) : Tx unit :=
  match c with
  | TransferOwnership newOwner => transferOwnership env newOwner
  | AddProvider provider => addProvider env provider
  | RemoveProvider provider => removeProvider env provider
  | SetPaused flag => setPaused env flag
  | SetCooldown seconds => setCooldown env seconds
  | OpenBatch => openBatch env
  | CloseBatch batch => closeBatch env batch
  | SubmitEncryptedData batch encryptedData => submitEncryptedData env batch encryptedData
  | RequestBatchSummaryDecryption batch => requestBatchSummaryDecryption env batch
  | MyCallback requestId cleartexts proof => myCallback env requestId cleartexts proof
  end.

Inductive Outcome :=
| Success (log : list Event)
| Failure (e : Error).

(** One external call as a transaction: a revert restores the state the
    call started from and publishes nothing. *)
Definition exec (env : Env) (c : Call) (s : State) : State * Outcome :=
  match dispatch env c s [] with
  | Return _ s' log => (s', Success log)
  | Revert e _ => (s, Failure e)
  end.

(** The state after deployment by [msg_sender env]. *)
Definition deploy (env : Env) : State :=
  match constructor env zeroState [] with
  | Return _ s _ => s
  | Revert _ s => s
  end.

(** Modelled from the spec: the oracle's guarantee that a request
    identifier is "fresh" and "unique", i.e. the identifier it answers a
    request with is one it has not issued before. Calls that make no request
    do not ask it. *)
Definition oracle_fresh (s : State) (env : Env) (c : Call) : Prop :=
  match c with
  | RequestBatchSummaryDecryption _ => oracle_requestId env ∉ issuedRequests s
  | _ => True
  end.

(** States the contract can be in: deployed, then any calls by anyone. *)
Inductive reachable : State -> Prop :=
| reachable_deploy env : reachable (deploy env)
| reachable_exec s env c :
    reachable s -> oracle_fresh s env c -> reachable (exec env c s).1.

(** [steps s s']: some sequence of calls leads from [s] to [s']. *)
Inductive steps : State -> State -> Prop :=
| steps_refl s : steps s s
| steps_call s env c s' :
    oracle_fresh s env c -> steps (exec env c s).1 s' -> steps s s'.

End Contract.

(** ** Vocabulary of the properties *)

(** [s'] is [s] except for the [processed] flag of the context of
    [requestId]. *)
Definition sameExceptProcessed (requestId : Z) (s s' : State) : Prop :=
  owner s' = owner s ∧
  isProvider s' = isProvider s ∧
  paused s' = paused s ∧
  cooldownSeconds s' = cooldownSeconds s ∧
  lastSubmissionTime s' = lastSubmissionTime s ∧
  lastDecryptionRequestTime s' = lastDecryptionRequestTime s ∧
  currentBatchId s' = currentBatchId s ∧
  isBatchClosed s' = isBatchClosed s ∧
  issuedRequests s' = issuedRequests s ∧
  (∀ k, k ≠ requestId → decryptionContexts s' !! k = decryptionContexts s !! k) ∧
  batchId (readContext (decryptionContexts s') requestId) =
    batchId (readContext (decryptionContexts s) requestId) ∧
  stateHash (readContext (decryptionContexts s') requestId) =
    stateHash (readContext (decryptionContexts s) requestId).

(** How many [ProviderAdded provider] notifications a log holds. *)
Definition isProviderAdded (provider : Z) (ev : Event) : bool :=
  match ev with
  | ProviderAdded p => p =? provider
  | _ => false
  end.

Definition countProviderAdded (provider : Z) (log : list Event) : nat :=
  length (filter (fun ev => isProviderAdded provider ev = true) log).

(** The events a transaction published (none when it failed). *)
Definition published (o : Outcome) : list Event :=
  match o with
  | Success log => log
  | Failure _ => []
  end.

Definition succeeded (o : Outcome) : bool :=
  match o with
  | Success _ => true
  | Failure _ => false
  end.

(** Every identifier the oracle has issued has a context, and the context
    carries the fingerprint computed at request time. *)
Definition issued_contexts_bound {P : Platform} (s : State) : Prop :=
  ∀ requestId, requestId ∈ issuedRequests s →
    ∃ c, decryptionContexts s !! requestId = Some c ∧ stateHash c = requestFingerprint.

(** Every context in storage is stored under an identifier the oracle has
    issued. *)
Definition contexts_are_issued (s : State) : Prop :=
  ∀ requestId c, decryptionContexts s !! requestId = Some c →
    requestId ∈ issuedRequests s.

(** A closed batch is the current batch or an earlier one. *)
Definition closed_are_opened (s : State) : Prop :=
  ∀ batch, readBool (isBatchClosed s) batch = true → batch ≤ currentBatchId s.

(** The four operations guarded by [whenNotPaused]. *)
Definition pausable (c : Call) : bool :=
  match c with
  | OpenBatch | CloseBatch _ | SubmitEncryptedData _ _
  | RequestBatchSummaryDecryption _ => true
  | _ => false
  end.

(** The seven functions carrying [onlyOwner], the two carrying
    [onlyProvider]. *)
Definition ownerOnly (c : Call) : bool :=
  match c with
  | TransferOwnership _ | AddProvider _ | RemoveProvider _ | SetPaused _
  | SetCooldown _ | OpenBatch | CloseBatch _ => true
  | _ => false
  end.

Definition providerOnly (c : Call) : bool :=
  match c with
  | SubmitEncryptedData _ _ | RequestBatchSummaryDecryption _ => true
  | _ => false
  end.

(** What the owner administrates: the owner, the providers, the pause
    switch, the cooldown and the batches. *)
Definition adminState (s : State) : Z * gmap Z bool * bool * Z * Z * gmap Z bool :=
  (owner s, isProvider s, paused s, cooldownSeconds s, currentBatchId s, isBatchClosed s).

(** ** A concrete platform and concrete runs

    A toy instance of the platform, to run the contract on concrete inputs:
    a polynomial checksum in place of the hash, and a proof check that
    accepts any non-empty proof. *)

Definition samplePlatform : Platform := {|
  address_this := 4096;
  keccak256 := fun ws => 1 + fold_left (fun a w => (a * 31 + w) mod 1000003) ws 7;
  FHE_asEuint32 := fun v => v + 5;
  FHE_toBytes32 := fun h => h;
  FHE_checkSignatures := fun _ _ proof => negb (length proof =? 0)%nat;
  myCallback_selector := 0
|}.

(** Calls are made by the owner [alice = 1] or by the outsider [bob = 2]. *)
Definition alice : Z := 1.
Definition bob : Z := 2.

(** [at_ who now rid]: a call by [who] at time [now]; the oracle would
    answer a request with [rid]. *)
Definition at_ (who now rid : Z) : Env := mkEnv who now rid.

(** Run a list of calls from a state, keeping the last state. *)
Fixpoint run_calls {P : Platform} (cs : list (Env * Call)) (s : State) : State :=
  match cs with
  | [] => s
  | (env, c) :: cs' => run_calls cs' (exec env c s).1
  end.

(** The word [42] as 32 big-endian bytes. *)
Definition cleartext42 : list byte := replicate 31 x00 ++ [x2a].


(** The oracle's guarantee along a list of calls, as a computable check. *)
Definition oracle_freshb (s : State) (env : Env) (c : Call) : bool :=
  match c with
  | RequestBatchSummaryDecryption _ => bool_decide (oracle_requestId env ∉ issuedRequests s)
  | _ => true
  end.

Fixpoint fresh_alongb {P : Platform} (cs : list (Env * Call)) (s : State) : bool :=
  match cs with
  | [] => true
  | (env, c) :: cs' => oracle_freshb s env c && fresh_alongb cs' (exec env c s).1
  end.

(** Deployed by alice at time 0. *)
Definition s_deployed : State := deploy (at_ alice 0 0).

(** Batch 1 opened, one submission, batch 1 closed, its summary requested:
    the oracle answered with request 7. *)
Definition to_requested : list (Env * Call) :=
  [ (at_ alice 10 0, OpenBatch);
    (at_ alice 100 0, SubmitEncryptedData 1 11);
    (at_ alice 110 0, CloseBatch 1);
    (at_ alice 120 7, RequestBatchSummaryDecryption 1) ].

Definition s_requested : State := run_calls (P := samplePlatform) to_requested s_deployed.

(** Then the callback for request 7 delivered the cleartext 42. *)
Definition to_finalized : list (Env * Call) :=
  to_requested ++ [ (at_ bob 130 0, MyCallback 7 cleartext42 [x01]) ].

Definition s_finalized : State := run_calls (P := samplePlatform) to_finalized s_deployed.

(** What follows the finalization in the sample run: the same callback is
    delivered again, a second batch is opened and closed, and its summary is
    requested (request 8). *)
Definition after_finalized : list (Env * Call) :=
  [ (at_ bob 140 0, MyCallback 7 cleartext42 [x01]);
    (at_ alice 150 0, OpenBatch);
    (at_ alice 160 0, CloseBatch 2);
    (at_ alice 200 8, RequestBatchSummaryDecryption 2) ].

Definition s_later : State := run_calls (P := samplePlatform) after_finalized s_finalized.

(** Paused right after deployment. *)
Definition s_paused : State :=
  run_calls (P := samplePlatform) [ (at_ alice 5 0, SetPaused true) ] s_deployed.

(** Batch 0 closed right after deployment, while it is the current one. *)
Definition s_zero_closed : State :=
  run_calls (P := samplePlatform) [ (at_ alice 5 0, CloseBatch 0) ] s_deployed.

(** * Properties *)

Section Properties.
Context {P : Platform}.

Ltac tx_unfold :=
  unfold mbind, Tx_bind, mret, Tx_ret, sload, sstore, revertIf, revert, emit,
    checked_add, abi_decode_uint256 in *.

(** ** Reading after writing *)

Lemma readBool_insert (m : gmap Z bool) (k k' : Z) (v : bool) :
  readBool (<[k := v]> m) k' = if decide (k = k') then v else readBool m k'.
Proof. unfold readBool. rewrite lookup_insert. by case_decide. Qed.

Lemma readUint_insert (m : gmap Z Z) (k k' v : Z) :
  readUint (<[k := v]> m) k' = if decide (k = k') then v else readUint m k'.
Proof. unfold readUint. rewrite lookup_insert. by case_decide. Qed.

Lemma readContext_insert (m : gmap Z DecryptionContext) (k k' : Z) (v : DecryptionContext) :
  readContext (<[k := v]> m) k' = if decide (k = k') then v else readContext m k'.
Proof. unfold readContext. rewrite lookup_insert. by case_decide. Qed.

Lemma readContext_set_processed (s : State) (k k' : Z) (v : bool) :
  readContext (decryptionContexts (set_processed k v s)) k' =
  if decide (k = k')
  then mkContext (batchId (readContext (decryptionContexts s) k))
                 (stateHash (readContext (decryptionContexts s) k)) v
  else readContext (decryptionContexts s) k'.
Proof. unfold set_processed. simpl. apply readContext_insert. Qed.

(** ** What each function computes

    Each function is a cascade of guards followed by its effect. *)

Lemma onlyOwner_run env s log :
  onlyOwner env s log =
  if msg_sender env =? owner s then Return tt s log else Revert NotOwner s.
Proof. unfold onlyOwner. tx_unfold. by destruct (_ =? _). Qed.

Lemma transferOwnership_run env newOwner s log :
  transferOwnership env newOwner s log =
  if msg_sender env =? owner s
  then Return tt (set_owner newOwner s) (log ++ [OwnershipTransferred (owner s) newOwner])
  else Revert NotOwner s.
Proof.
  unfold transferOwnership, mbind at 1, Tx_bind. rewrite onlyOwner_run.
  by destruct (_ =? _).
Qed.

Lemma addProvider_run env provider s log :
  addProvider env provider s log =
  if msg_sender env =? owner s then
    if readBool (isProvider s) provider then Return tt s log
    else Return tt (set_isProvider provider true s) (log ++ [ProviderAdded provider])
  else Revert NotOwner s.
Proof.
  unfold addProvider, mbind at 1, Tx_bind. rewrite onlyOwner_run.
  destruct (_ =? _); [|done]. tx_unfold. by destruct (readBool _ _).
Qed.

Lemma removeProvider_run env provider s log :
  removeProvider env provider s log =
  if msg_sender env =? owner s then
    if readBool (isProvider s) provider
    then Return tt (set_isProvider provider false s) (log ++ [ProviderRemoved provider])
    else Return tt s log
  else Revert NotOwner s.
Proof.
  unfold removeProvider, mbind at 1, Tx_bind. rewrite onlyOwner_run.
  destruct (_ =? _); [|done]. tx_unfold. by destruct (readBool _ _).
Qed.

Lemma setPaused_run env flag s log :
  setPaused env flag s log =
  if msg_sender env =? owner s
  then Return tt (set_paused flag s) (log ++ [PauseToggled flag])
  else Revert NotOwner s.
Proof.
  unfold setPaused, mbind at 1, Tx_bind. rewrite onlyOwner_run.
  by destruct (_ =? _).
Qed.

Lemma setCooldown_run env seconds s log :
  setCooldown env seconds s log =
  if msg_sender env =? owner s
  then Return tt (set_cooldownSeconds seconds s) (log ++ [CooldownSet seconds])
  else Revert NotOwner s.
Proof.
  unfold setCooldown, mbind at 1, Tx_bind. rewrite onlyOwner_run.
  by destruct (_ =? _).
Qed.

Lemma openBatch_run env s log :
  openBatch env s log =
  if negb (msg_sender env =? owner s) then Revert NotOwner s
  else if paused s then Revert Paused s
  else if negb (currentBatchId s + 1 <=? uint256_max) then Revert (Panic 17) s
  else Return tt
         (set_isBatchClosed (currentBatchId s + 1) false
            (set_currentBatchId (currentBatchId s + 1) s))
         (log ++ [BatchOpened (currentBatchId s + 1)]).
Proof.
  unfold openBatch, mbind at 1, Tx_bind. rewrite onlyOwner_run.
  destruct (_ =? _); [|done]. unfold whenNotPaused. tx_unfold. simpl.
  destruct (paused s); [done|]. simpl. by destruct (_ <=? _).
Qed.

Lemma closeBatch_run env batch s log :
  closeBatch env batch s log =
  if negb (msg_sender env =? owner s) then Revert NotOwner s
  else if paused s then Revert Paused s
  else if negb (batch =? currentBatchId s) then Revert InvalidBatch s
  else Return tt (set_isBatchClosed batch true s) (log ++ [BatchClosed batch]).
Proof.
  unfold closeBatch, mbind at 1, Tx_bind. rewrite onlyOwner_run.
  destruct (_ =? _); [|done]. unfold whenNotPaused. tx_unfold. simpl.
  destruct (paused s); [done|]. simpl. by destruct (_ =? _).
Qed.

Lemma submitEncryptedData_run env batch encryptedData s log :
  submitEncryptedData env batch encryptedData s log =
  let last := readUint (lastSubmissionTime s) (msg_sender env) in
  if negb (readBool (isProvider s) (msg_sender env)) then Revert NotProvider s
  else if paused s then Revert Paused s
  else if negb (last + cooldownSeconds s <=? uint256_max) then Revert (Panic 17) s
  else if block_timestamp env <? last + cooldownSeconds s then Revert CooldownActive s
  else if readBool (isBatchClosed s) batch then Revert InvalidBatch s
  else Return tt (set_lastSubmissionTime (msg_sender env) (block_timestamp env) s)
         (log ++ [EncryptedDataSubmitted (msg_sender env) batch encryptedData]).
Proof.
  unfold submitEncryptedData, onlyProvider, whenNotPaused. tx_unfold. simpl.
  destruct (readBool (isProvider s) _); [|done]. simpl.
  destruct (paused s); [done|]. simpl.
  destruct (_ <=? _); [|done]. simpl.
  destruct (_ <? _); [done|]. simpl.
  by destruct (readBool (isBatchClosed s) _).
Qed.

Lemma requestBatchSummaryDecryption_run env batch s log :
  requestBatchSummaryDecryption env batch s log =
  let last := readUint (lastDecryptionRequestTime s) (msg_sender env) in
  if negb (readBool (isProvider s) (msg_sender env)) then Revert NotProvider s
  else if paused s then Revert Paused s
  else if negb (last + cooldownSeconds s <=? uint256_max) then Revert (Panic 17) s
  else if block_timestamp env <? last + cooldownSeconds s then Revert CooldownActive s
  else if negb (readBool (isBatchClosed s) batch) then Revert InvalidBatch s
  else Return tt
         (set_decryptionContext (oracle_requestId env)
            (mkContext batch requestFingerprint false)
            (set_issued (oracle_requestId env)
               (set_lastDecryptionRequestTime (msg_sender env) (block_timestamp env) s)))
         (log ++ [DecryptionRequested (oracle_requestId env) batch]).
Proof.
  unfold requestBatchSummaryDecryption, FHE_requestDecryption, onlyProvider,
    whenNotPaused, requestFingerprint.
  tx_unfold. simpl.
  destruct (readBool (isProvider s) _); [|done]. simpl.
  destruct (paused s); [done|]. simpl.
  destruct (_ <=? _); [|done]. simpl.
  destruct (_ <? _); [done|]. simpl.
  by destruct (readBool (isBatchClosed s) _).
Qed.

Lemma myCallback_run env requestId cleartexts proof s log :
  myCallback env requestId cleartexts proof s log =
  let c := readContext (decryptionContexts s) requestId in
  if processed c then Revert ReplayAttempt s
  else if negb (callbackFingerprint =? stateHash c) then Revert StateMismatch s
  else if negb (FHE_checkSignatures requestId cleartexts proof) then Revert DecryptionFailed s
  else if (length cleartexts <? 32)%nat then Revert AbiDecodeFailure s
  else Return tt (set_processed requestId true s)
         (log ++ [DecryptionCompleted requestId (batchId c)
                    [bytes_to_uint (take 32 cleartexts)]]).
Proof.
  unfold myCallback, callbackFingerprint. tx_unfold. simpl.
  destruct (processed _); [done|]. simpl.
  destruct (_ =? _); [|done]. simpl.
  destruct (FHE_checkSignatures _ _ _); [|done]. simpl.
  destruct (_ <? _)%nat; [done|]. simpl.
  rewrite readContext_insert. by rewrite decide_True.
Qed.


(** ** The callback *)

Lemma exec_myCallback env requestId cleartexts proof s :
  exec env (MyCallback requestId cleartexts proof) s =
  let c := readContext (decryptionContexts s) requestId in
  if processed c then (s, Failure ReplayAttempt)
  else if negb (callbackFingerprint =? stateHash c) then (s, Failure StateMismatch)
  else if negb (FHE_checkSignatures requestId cleartexts proof)
       then (s, Failure DecryptionFailed)
  else if (length cleartexts <? 32)%nat then (s, Failure AbiDecodeFailure)
  else (set_processed requestId true s,
        Success [DecryptionCompleted requestId (batchId c)
                   [bytes_to_uint (take 32 cleartexts)]]).
Proof.
  unfold exec, dispatch. rewrite myCallback_run. simpl.
  repeat (match goal with |- context [if ?b then _ else _] => destruct b end; simpl; try done).
Qed.

Lemma set_processed_frame requestId s :
  sameExceptProcessed requestId s (set_processed requestId true s).
Proof.
  unfold sameExceptProcessed, set_processed. simpl.
  repeat split; try done.
  - intros k Hk. by rewrite lookup_insert_ne.
  - rewrite readContext_insert. by rewrite decide_True.
  - rewrite readContext_insert. by rewrite decide_True.
Qed.

(** C4. In [myCallback] the replay guard, the fingerprint check and the
    proof check are evaluated in this order, each failure is reported by its
    own error, nothing has been written to storage when a check fails (so the
    failed transaction leaves the whole state as it was), and a successful
    call changes nothing but the [processed] flag of the request's context
    and publishes exactly the completion notification. *)
Theorem callback_finalizes_only_after_checks env requestId cleartexts proof s :
  let c := readContext (decryptionContexts s) requestId in
  let tx := exec env (MyCallback requestId cleartexts proof) s in
  (tx.2 = Failure ReplayAttempt ↔ processed c = true) ∧
  (tx.2 = Failure StateMismatch ↔
     processed c = false ∧ callbackFingerprint ≠ stateHash c) ∧
  (tx.2 = Failure DecryptionFailed ↔
     processed c = false ∧ callbackFingerprint = stateHash c ∧
     FHE_checkSignatures requestId cleartexts proof = false) ∧
  (∀ e s', myCallback env requestId cleartexts proof s [] = Revert e s' → s' = s) ∧
  (∀ e, tx.2 = Failure e → tx.1 = s) ∧
  (∀ log, tx.2 = Success log →
     processed c = false ∧ callbackFingerprint = stateHash c ∧
     FHE_checkSignatures requestId cleartexts proof = true ∧
     sameExceptProcessed requestId s tx.1 ∧
     processed (readContext (decryptionContexts tx.1) requestId) = true ∧
     log = [DecryptionCompleted requestId (batchId c)
              [bytes_to_uint (take 32 cleartexts)]]).
Proof.
  intros c tx. subst tx. rewrite exec_myCallback. fold c.
  split_and!.
  - simpl. destruct (processed c); [done|].
    repeat (match goal with |- context [if ?b then _ else _] => destruct b end; simpl);
      split; congruence.
  - simpl. destruct (processed c); [split; [done | intros [? _]; done]|].
    destruct (Z.eqb_spec callbackFingerprint (stateHash c)); simpl.
    + repeat (match goal with |- context [if ?b then _ else _] => destruct b end; simpl);
        (split; [done | intros [_ ?]; done]).
    + done.
  - simpl. destruct (processed c); [split; [done | intros [? _]; done]|].
    destruct (Z.eqb_spec callbackFingerprint (stateHash c)); simpl.
    + destruct (FHE_checkSignatures _ _ _); simpl; [|done].
      destruct (_ <? _)%nat; simpl; (split; [done | intros (_ & _ & ?); done]).
    + split; [done | intros (_ & ? & _); done].
  - intros e s'. rewrite myCallback_run. fold c.
    repeat (match goal with |- context [if ?b then _ else _] => destruct b end; simpl);
      congruence.
  - intros e.
    repeat (match goal with |- context [if ?b then _ else _] => destruct b end; simpl);
      congruence.
  - intros log. simpl. destruct (processed c) eqn:Hp; simpl; [done|].
    destruct (Z.eqb_spec callbackFingerprint (stateHash c)); simpl; [|done].
    destruct (FHE_checkSignatures _ _ _); simpl; [|done].
    destruct (_ <? _)%nat; simpl; [done|].
    intros [= <-]. split_and!; try done.
    + apply set_processed_frame.
    + rewrite readContext_insert. by rewrite decide_True.
Qed.

(** C10. [myCallback] never looks at its caller: in the same state, with
    the same request identifier, cleartext and proof, two calls made in any
    two environments (two callers, at any two times) have the same outcome
    and the same resulting state. *)
Theorem callback_ignores_caller env1 env2 requestId cleartexts proof s :
  exec env1 (MyCallback requestId cleartexts proof) s =
  exec env2 (MyCallback requestId cleartexts proof) s.
Proof. by rewrite !exec_myCallback. Qed.

(** C2 (as the code has it). When no context is stored under
    [requestId], the callback does not fail with [ReplayAttempt]: the
    replay guard reads [processed = false] and lets the call through. The
    call is stopped by the fingerprint check, with [StateMismatch], because
    the stored fingerprint reads as zero, whenever the fingerprint computed
    by the callback is not zero; the state is unchanged. *)
Theorem callback_on_missing_context env requestId cleartexts proof s :
  decryptionContexts s !! requestId = None →
  (exec env (MyCallback requestId cleartexts proof) s).2 ≠ Failure ReplayAttempt ∧
  (callbackFingerprint ≠ 0 →
   exec env (MyCallback requestId cleartexts proof) s = (s, Failure StateMismatch)).
Proof.
  intros Hnone. rewrite exec_myCallback.
  unfold readContext. rewrite Hnone. simpl. split.
  - repeat (match goal with |- context [if ?b then _ else _] => destruct b end; simpl);
      congruence.
  - intros Hfp. by destruct (Z.eqb_spec callbackFingerprint 0).
Qed.

(** ** One call at a time *)

Ltac case_if :=
  match goal with
  | |- context [if negb ?b then _ else _] => destruct b eqn:?; simpl
  | |- context [if ?b then _ else _] => destruct b eqn:?; simpl
  end.

Ltac run_call c :=
  unfold exec, dispatch; destruct c;
  rewrite ?transferOwnership_run, ?addProvider_run, ?removeProvider_run,
    ?setPaused_run, ?setCooldown_run, ?openBatch_run, ?closeBatch_run,
    ?submitEncryptedData_run, ?requestBatchSummaryDecryption_run, ?myCallback_run;
  cbv zeta; repeat case_if.

Lemma deploy_state env :
  deploy env =
  set_cooldownSeconds 60 (set_isProvider (msg_sender env) true
    (set_owner (msg_sender env) zeroState)).
Proof. reflexivity. Qed.

Lemma steps_reachable s s' : reachable s → steps s s' → reachable s'.
Proof.
  intros Hr Hs. induction Hs as [|s env c s' Hf _ IH]; [done|].
  apply IH. by apply reachable_exec.
Qed.

Lemma steps_trans s1 s2 s3 : steps s1 s2 → steps s2 s3 → steps s1 s3.
Proof.
  intros H12 H23. induction H12 as [|s env c s' Hf _ IH]; [done|].
  eapply steps_call; [done|]. by apply IH.
Qed.

(** ** Replay safety *)

Lemma issued_grows env c s requestId :
  requestId ∈ issuedRequests s → requestId ∈ issuedRequests (exec env c s).1.
Proof. intros Hin. run_call c; try done. set_solver. Qed.

Lemma processed_context_kept env c s requestId :
  requestId ∈ issuedRequests s →
  processed (readContext (decryptionContexts s) requestId) = true →
  oracle_fresh s env c →
  decryptionContexts (exec env c s).1 !! requestId = decryptionContexts s !! requestId.
Proof.
  intros Hin Hp Hfresh. run_call c; try done.
  - simpl in Hfresh. rewrite lookup_insert_ne; [done|]. intros Heq. by rewrite Heq in Hfresh.
  - rewrite lookup_insert_ne; [done|]. intros Heq. rewrite Heq in *. congruence.
Qed.

(** C1. Once the context of an issued request identifier is marked
    processed, it stays as it is (processed flag, batch identifier and
    fingerprint) whatever calls follow, and in every later state the
    callback for that identifier fails with [ReplayAttempt], for any
    cleartext and proof and any caller, changing no state and publishing
    nothing: so no sequence of calls processes it a second time. *)
Theorem processed_request_is_never_processed_again s s' requestId :
  requestId ∈ issuedRequests s →
  processed (readContext (decryptionContexts s) requestId) = true →
  steps s s' →
  decryptionContexts s' !! requestId = decryptionContexts s !! requestId ∧
  ∀ env cleartexts proof,
    exec env (MyCallback requestId cleartexts proof) s' = (s', Failure ReplayAttempt).
Proof.
  intros Hin Hp Hsteps.
  assert (decryptionContexts s' !! requestId = decryptionContexts s !! requestId) as Hsame.
  { induction Hsteps as [|s env c s' Hf _ IH]; [done|].
    pose proof (processed_context_kept env c s requestId Hin Hp Hf) as Hk.
    rewrite IH; [done | by apply issued_grows |].
    unfold readContext. by rewrite Hk. }
  split; [done|]. intros env cleartexts proof.
  rewrite exec_myCallback. cbv zeta.
  unfold readContext in *. rewrite Hsame. by rewrite Hp.
Qed.

(** On a platform whose callback fingerprint is not zero, contexts exist
    only under issued identifiers: a callback for any other identifier is
    stopped by the fingerprint check before it writes. *)
Lemma contexts_are_issued_reachable s :
  callbackFingerprint ≠ 0 → reachable s → contexts_are_issued s.
Proof.
  intros Hfp Hr. induction Hr as [env|s env c Hr IH Hfresh].
  - intros k c. rewrite deploy_state. simpl. by rewrite lookup_empty.
  - revert IH. unfold contexts_are_issued. run_call c; intros IH k ctx; try apply IH.
    + rewrite lookup_insert. case_decide as Hk.
      * intros _. rewrite <- Hk. set_solver.
      * intros Hl. apply IH in Hl. set_solver.
    + rewrite lookup_insert. case_decide as Hk; [|apply IH].
      intros _. rewrite <- Hk.
      destruct (decryptionContexts s !! requestId) as [c0|] eqn:Hl; [by eapply IH|].
      exfalso. unfold readContext in *. rewrite Hl in *. simpl in *.
      apply Hfp. by apply Z.eqb_eq.
Qed.

(** ** The fingerprint of a request is the one its callback recomputes *)

Lemma request_callback_cts : request_cts = callback_cts.
Proof. reflexivity. Qed.

Lemma request_callback_fingerprint : requestFingerprint = callbackFingerprint.
Proof. unfold requestFingerprint, callbackFingerprint. by rewrite request_callback_cts. Qed.

Lemma issued_contexts_bound_reachable s : reachable s → issued_contexts_bound s.
Proof.
  intros Hr. induction Hr as [env|s env c Hr IH Hfresh].
  - intros k. rewrite deploy_state. simpl. set_solver.
  - revert IH. unfold issued_contexts_bound. run_call c; intros IH k; try apply IH.
    + rewrite lookup_insert. case_decide as Hk.
      * intros _. by eexists.
      * intros Hin. apply IH.
        apply elem_of_union in Hin as [Hin%elem_of_singleton|Hin]; [congruence|done].
    + intros Hin. rewrite lookup_insert. case_decide as Hk; [|by apply IH].
      subst k. destruct (IH _ Hin) as (c0 & Hl & Hh).
      eexists. split; [done|]. simpl. unfold readContext. by rewrite Hl.
Qed.

(** C3. The handle list built when a decryption is requested and the one
    rebuilt in the callback are the same list, so the two fingerprints are
    the same value; hence in every reachable state the context of every
    request identifier issued for a request of this contract stores the
    fingerprint the callback recomputes, and the callback for it never fails
    with [StateMismatch]. *)
Theorem request_fingerprint_matches_callback s requestId :
  reachable s →
  requestId ∈ issuedRequests s →
  request_cts = callback_cts ∧
  requestFingerprint = callbackFingerprint ∧
  stateHash (readContext (decryptionContexts s) requestId) = callbackFingerprint ∧
  ∀ env cleartexts proof,
    (exec env (MyCallback requestId cleartexts proof) s).2 ≠ Failure StateMismatch.
Proof.
  intros Hr Hin.
  destruct (issued_contexts_bound_reachable s Hr requestId Hin) as (c & Hl & Hh).
  assert (stateHash (readContext (decryptionContexts s) requestId) = callbackFingerprint)
    as Hstored.
  { unfold readContext. rewrite Hl. simpl. by rewrite Hh, request_callback_fingerprint. }
  split_and!; [apply request_callback_cts | apply request_callback_fingerprint | done |].
  intros env cleartexts proof. rewrite exec_myCallback. cbv zeta.
  rewrite Hstored, Z.eqb_refl. simpl.
  repeat case_if; congruence.
Qed.

(** ** Batches *)

Lemma closed_are_opened_reachable s : reachable s → closed_are_opened s.
Proof.
  intros Hr. induction Hr as [env|s env c Hr IH Hfresh].
  - intros b. rewrite deploy_state. simpl. unfold readBool. by rewrite lookup_empty.
  - revert IH. unfold closed_are_opened. run_call c; intros IH b; try apply IH.
    + rewrite readBool_insert. case_decide; [done|]. intros Hb. apply IH in Hb. lia.
    + rewrite readBool_insert. case_decide as Hk; [|apply IH].
      intros _. subst b.
      match goal with H : (_ =? currentBatchId _) = true |- _ => apply Z.eqb_eq in H end.
      lia.
Qed.

Lemma closed_stays_closed_call env c s batch :
  closed_are_opened s →
  readBool (isBatchClosed s) batch = true →
  readBool (isBatchClosed (exec env c s).1) batch = true.
Proof.
  intros Hinv Hb. run_call c; try done.
  - rewrite readBool_insert. case_decide as Hk; [|done].
    apply Hinv in Hb. lia.
  - rewrite readBool_insert. by case_decide.
Qed.

(** C6. In every state the contract can reach, a batch whose closed flag
    is set keeps it set whatever calls follow. [openBatch] does write
    [false], but to the flag of the identifier after the current one, and
    every closed batch is the current one or an earlier one. *)
Theorem closed_batch_never_reopens s s' batch :
  reachable s →
  readBool (isBatchClosed s) batch = true →
  steps s s' →
  readBool (isBatchClosed s') batch = true.
Proof.
  intros Hr Hb Hsteps. induction Hsteps as [|s env c s' Hf _ IH]; [done|].
  apply IH.
  - by apply reachable_exec.
  - apply closed_stays_closed_call; [|done]. by apply closed_are_opened_reachable.
Qed.

(** ** Transactions of each kind *)

Lemma exec_addProvider env provider s :
  exec env (AddProvider provider) s =
  if msg_sender env =? owner s then
    if readBool (isProvider s) provider then (s, Success [])
    else (set_isProvider provider true s, Success [ProviderAdded provider])
  else (s, Failure NotOwner).
Proof. unfold exec, dispatch. rewrite addProvider_run. by repeat case_if. Qed.

Lemma exec_removeProvider env provider s :
  exec env (RemoveProvider provider) s =
  if msg_sender env =? owner s then
    if readBool (isProvider s) provider
    then (set_isProvider provider false s, Success [ProviderRemoved provider])
    else (s, Success [])
  else (s, Failure NotOwner).
Proof. unfold exec, dispatch. rewrite removeProvider_run. by repeat case_if. Qed.

Lemma exec_submitEncryptedData env batch encryptedData s :
  exec env (SubmitEncryptedData batch encryptedData) s =
  let last := readUint (lastSubmissionTime s) (msg_sender env) in
  if negb (readBool (isProvider s) (msg_sender env)) then (s, Failure NotProvider)
  else if paused s then (s, Failure Paused)
  else if negb (last + cooldownSeconds s <=? uint256_max) then (s, Failure (Panic 17))
  else if block_timestamp env <? last + cooldownSeconds s then (s, Failure CooldownActive)
  else if readBool (isBatchClosed s) batch then (s, Failure InvalidBatch)
  else (set_lastSubmissionTime (msg_sender env) (block_timestamp env) s,
        Success [EncryptedDataSubmitted (msg_sender env) batch encryptedData]).
Proof. unfold exec, dispatch. rewrite submitEncryptedData_run. cbv zeta. by repeat case_if. Qed.

Lemma exec_requestBatchSummaryDecryption env batch s :
  exec env (RequestBatchSummaryDecryption batch) s =
  let last := readUint (lastDecryptionRequestTime s) (msg_sender env) in
  if negb (readBool (isProvider s) (msg_sender env)) then (s, Failure NotProvider)
  else if paused s then (s, Failure Paused)
  else if negb (last + cooldownSeconds s <=? uint256_max) then (s, Failure (Panic 17))
  else if block_timestamp env <? last + cooldownSeconds s then (s, Failure CooldownActive)
  else if negb (readBool (isBatchClosed s) batch) then (s, Failure InvalidBatch)
  else (set_decryptionContext (oracle_requestId env)
          (mkContext batch requestFingerprint false)
          (set_issued (oracle_requestId env)
             (set_lastDecryptionRequestTime (msg_sender env) (block_timestamp env) s)),
        Success [DecryptionRequested (oracle_requestId env) batch]).
Proof.
  unfold exec, dispatch. rewrite requestBatchSummaryDecryption_run. cbv zeta.
  by repeat case_if.
Qed.

Lemma exec_openBatch env s :
  exec env OpenBatch s =
  if negb (msg_sender env =? owner s) then (s, Failure NotOwner)
  else if paused s then (s, Failure Paused)
  else if negb (currentBatchId s + 1 <=? uint256_max) then (s, Failure (Panic 17))
  else (set_isBatchClosed (currentBatchId s + 1) false
          (set_currentBatchId (currentBatchId s + 1) s),
        Success [BatchOpened (currentBatchId s + 1)]).
Proof. unfold exec, dispatch. rewrite openBatch_run. by repeat case_if. Qed.

Lemma exec_closeBatch env batch s :
  exec env (CloseBatch batch) s =
  if negb (msg_sender env =? owner s) then (s, Failure NotOwner)
  else if paused s then (s, Failure Paused)
  else if negb (batch =? currentBatchId s) then (s, Failure InvalidBatch)
  else (set_isBatchClosed batch true s, Success [BatchClosed batch]).
Proof. unfold exec, dispatch. rewrite closeBatch_run. by repeat case_if. Qed.

(** ** The access registry *)

(** C9. [addProvider] and [removeProvider], called by the owner, are
    idempotent: adding an address that is already a provider, or removing
    one that is not, is a successful call that changes no state and
    publishes nothing. So of two [addProvider] calls in a row for the same
    address the second one changes nothing and publishes nothing, the
    address is a provider afterwards, and for an address that was not a
    provider before, the two calls publish exactly one [ProviderAdded] (for
    one that already was, none, as the first part says). *)
Theorem provider_toggles_are_idempotent env provider s :
  msg_sender env = owner s →
  (readBool (isProvider s) provider = true →
   exec env (AddProvider provider) s = (s, Success [])) ∧
  (readBool (isProvider s) provider = false →
   exec env (RemoveProvider provider) s = (s, Success [])) ∧
  let first := exec env (AddProvider provider) s in
  let second := exec env (AddProvider provider) first.1 in
  second = (first.1, Success []) ∧
  readBool (isProvider second.1) provider = true ∧
  countProviderAdded provider (published first.2 ++ published second.2) =
    (if readBool (isProvider s) provider then 0 else 1)%nat.
Proof.
  intros Hown.
  assert ((msg_sender env =? owner s) = true) as Hsender by by apply Z.eqb_eq.
  cbv zeta. rewrite exec_removeProvider, (exec_addProvider env provider s), Hsender.
  destruct (readBool (isProvider s) provider) eqn:Hp; cbn [fst snd].
  - rewrite exec_addProvider, Hsender, Hp. by split_and!.
  - rewrite exec_addProvider. simpl. rewrite Hsender.
    rewrite readBool_insert, decide_True by done.
    split_and!; try done.
    + simpl. by rewrite readBool_insert, decide_True.
    + unfold countProviderAdded. simpl.
      rewrite filter_cons_True by (simpl; by rewrite Z.eqb_refl). done.
Qed.

(** ** The pause switch *)

Lemma paused_call_fails env c s :
  paused s = true → pausable c = true →
  ∃ e, exec env c s = (s, Failure e) ∧ (e = Paused ∨ e = NotOwner ∨ e = NotProvider).
Proof.
  intros Hp Hc. destruct c; try done.
  - rewrite exec_openBatch, Hp. case_if; eauto.
  - rewrite exec_closeBatch, Hp. case_if; eauto.
  - rewrite exec_submitEncryptedData, Hp. cbv zeta. case_if; eauto.
  - rewrite exec_requestBatchSummaryDecryption, Hp. cbv zeta. case_if; eauto.
Qed.

(** C8 (as the code has it). While [paused] is set, every call to
    [openBatch], [closeBatch], [submitEncryptedData] or
    [requestBatchSummaryDecryption] fails and leaves the state unchanged.
    The role check comes before the pause check: the error is [Paused] when
    the caller has the role the function asks for (the owner for the first
    two, a provider for the other two), [NotOwner] or [NotProvider] when not.
    The owner's administrative calls are not guarded by the switch and
    succeed with their usual effect. *)
Theorem paused_blocks_operations_not_administration env s :
  paused s = true →
  (∀ c, pausable c = true →
     succeeded (exec env c s).2 = false ∧ (exec env c s).1 = s) ∧
  (msg_sender env = owner s →
     exec env OpenBatch s = (s, Failure Paused) ∧
     ∀ batch, exec env (CloseBatch batch) s = (s, Failure Paused)) ∧
  (readBool (isProvider s) (msg_sender env) = true →
     ∀ batch, (∀ data, exec env (SubmitEncryptedData batch data) s = (s, Failure Paused)) ∧
              exec env (RequestBatchSummaryDecryption batch) s = (s, Failure Paused)) ∧
  (msg_sender env ≠ owner s →
     exec env OpenBatch s = (s, Failure NotOwner) ∧
     ∀ batch, exec env (CloseBatch batch) s = (s, Failure NotOwner)) ∧
  (readBool (isProvider s) (msg_sender env) = false →
     ∀ batch, (∀ data, exec env (SubmitEncryptedData batch data) s = (s, Failure NotProvider)) ∧
              exec env (RequestBatchSummaryDecryption batch) s = (s, Failure NotProvider)) ∧
  (msg_sender env = owner s →
     (∀ newOwner, exec env (TransferOwnership newOwner) s =
        (set_owner newOwner s, Success [OwnershipTransferred (owner s) newOwner])) ∧
     (∀ provider, succeeded (exec env (AddProvider provider) s).2 = true ∧
        readBool (isProvider (exec env (AddProvider provider) s).1) provider = true) ∧
     (∀ provider, succeeded (exec env (RemoveProvider provider) s).2 = true ∧
        readBool (isProvider (exec env (RemoveProvider provider) s).1) provider = false) ∧
     (∀ flag, exec env (SetPaused flag) s = (set_paused flag s, Success [PauseToggled flag])) ∧
     (∀ seconds, exec env (SetCooldown seconds) s =
        (set_cooldownSeconds seconds s, Success [CooldownSet seconds]))).
Proof.
  intros Hp. split_and!.
  - intros c Hc. destruct (paused_call_fails env c s Hp Hc) as (e & -> & _). done.
  - intros Hown. rewrite exec_openBatch, Hown, Z.eqb_refl, Hp. split; [done|].
    intros batch. by rewrite exec_closeBatch, Hown, Z.eqb_refl, Hp.
  - intros Hprov batch. split; [intros data|].
    + rewrite exec_submitEncryptedData. cbv zeta. by rewrite Hprov, Hp.
    + rewrite exec_requestBatchSummaryDecryption. cbv zeta. by rewrite Hprov, Hp.
  - intros Hown. apply Z.eqb_neq in Hown.
    rewrite exec_openBatch, Hown. split; [done|].
    intros batch. by rewrite exec_closeBatch, Hown.
  - intros Hprov batch. split; [intros data|].
    + rewrite exec_submitEncryptedData. cbv zeta. by rewrite Hprov.
    + rewrite exec_requestBatchSummaryDecryption. cbv zeta. by rewrite Hprov.
  - intros Hown.
    assert ((msg_sender env =? owner s) = true) as Hsender by by apply Z.eqb_eq.
    split_and!.
    + intros newOwner. unfold exec, dispatch. by rewrite transferOwnership_run, Hsender.
    + intros provider. rewrite exec_addProvider, Hsender.
      destruct (readBool (isProvider s) provider) eqn:Hprov; simpl; [done|].
      by rewrite readBool_insert, decide_True.
    + intros provider. rewrite exec_removeProvider, Hsender.
      destruct (readBool (isProvider s) provider) eqn:Hprov; simpl; [|done].
      by rewrite readBool_insert, decide_True.
    + intros flag. unfold exec, dispatch. by rewrite setPaused_run, Hsender.
    + intros seconds. unfold exec, dispatch. by rewrite setCooldown_run, Hsender.
Qed.

(** ** Submissions and the batch they name *)

(** C5 (as the code has it). [submitEncryptedData] looks at nothing of
    the batch but its closed flag. For a provider who is not throttled, while
    the contract is not paused, the call fails with [InvalidBatch] exactly
    when the flag of the named batch is set; otherwise it succeeds, whether
    or not the batch was ever opened and whether or not it is the current
    one. In every reachable state the flag of an identifier above the
    current one is unset, so such a batch is accepted. *)
Theorem submission_checks_only_the_closed_flag env batch encryptedData s :
  readBool (isProvider s) (msg_sender env) = true →
  paused s = false →
  readUint (lastSubmissionTime s) (msg_sender env) + cooldownSeconds s
    ≤ block_timestamp env →
  block_timestamp env ≤ uint256_max →
  ((exec env (SubmitEncryptedData batch encryptedData) s).2 = Failure InvalidBatch ↔
   readBool (isBatchClosed s) batch = true) ∧
  (readBool (isBatchClosed s) batch = false →
   exec env (SubmitEncryptedData batch encryptedData) s =
   (set_lastSubmissionTime (msg_sender env) (block_timestamp env) s,
    Success [EncryptedDataSubmitted (msg_sender env) batch encryptedData])) ∧
  (reachable s → currentBatchId s < batch →
   readBool (isBatchClosed s) batch = false).
Proof.
  intros Hprov Hp Hready Hnow.
  rewrite exec_submitEncryptedData. cbv zeta. rewrite Hprov, Hp. simpl.
  replace (_ <=? uint256_max) with true by (symmetry; apply Z.leb_le; lia).
  replace (block_timestamp env <? _) with false by (symmetry; apply Z.ltb_ge; lia).
  simpl. split_and!.
  - by destruct (readBool (isBatchClosed s) batch).
  - by intros ->.
  - intros Hr Hlt. destruct (readBool (isBatchClosed s) batch) eqn:Hb; [|done].
    apply (closed_are_opened_reachable s Hr) in Hb. lia.
Qed.

(** ** The throttle guard *)




(** ** Runs *)

Lemma oracle_freshb_fresh s env c : oracle_freshb s env c = true → oracle_fresh s env c.
Proof.
  destruct c; simpl; try done. intros H. by apply bool_decide_eq_true in H.
Qed.

Lemma steps_run_calls cs s : fresh_alongb cs s = true → steps s (run_calls cs s).
Proof.
  revert s. induction cs as [|[env c] cs IH]; intros s Hf; simpl in *.
  - apply steps_refl.
  - apply andb_true_iff in Hf as [Hc Hcs].
    eapply steps_call; [by apply oracle_freshb_fresh|]. by apply IH.
Qed.

Lemma reachable_run_calls env cs :
  fresh_alongb cs (deploy env) = true → reachable (run_calls cs (deploy env)).
Proof.
  intros Hf. eapply steps_reachable; [apply reachable_deploy|]. by apply steps_run_calls.
Qed.

(** * Further properties of the contract *)

(** ** Roles *)

(** X1. A caller who is not the owner is refused by each of the seven
    [onlyOwner] functions with [NotOwner], whatever the arguments and
    whether or not the contract is paused; the state is unchanged. *)
Theorem non_owner_is_refused env c s :
  msg_sender env ≠ owner s →
  ownerOnly c = true →
  exec env c s = (s, Failure NotOwner).
Proof.
  intros Hown Hc. apply Z.eqb_neq in Hown.
  destruct c; try done; unfold exec, dispatch.
  - by rewrite transferOwnership_run, Hown.
  - by rewrite addProvider_run, Hown.
  - by rewrite removeProvider_run, Hown.
  - by rewrite setPaused_run, Hown.
  - by rewrite setCooldown_run, Hown.
  - by rewrite openBatch_run, Hown.
  - by rewrite closeBatch_run, Hown.
Qed.

(** X2. A caller whose provider flag is not set is refused by
    [submitEncryptedData] and [requestBatchSummaryDecryption] with
    [NotProvider], the owner included: owning the contract does not make one
    a provider. *)
Theorem non_provider_is_refused env c s :
  readBool (isProvider s) (msg_sender env) = false →
  providerOnly c = true →
  exec env c s = (s, Failure NotProvider).
Proof.
  intros Hprov Hc. destruct c; try done.
  - rewrite exec_submitEncryptedData. cbv zeta. by rewrite Hprov.
  - rewrite exec_requestBatchSummaryDecryption. cbv zeta. by rewrite Hprov.
Qed.

(** X3. Whatever a caller who is not the owner calls, with whatever
    arguments, the owner, the provider flags, the pause switch, the cooldown,
    the current batch and the closed flags stay as they are. *)
Theorem only_owner_changes_administration env c s :
  msg_sender env ≠ owner s →
  adminState (exec env c s).1 = adminState s.
Proof.
  intros Hown. apply Z.eqb_neq in Hown.
  run_call c; try done; congruence.
Qed.

(** X4. No function writes to storage before its last check: whenever a
    call reverts, in any of the ten functions and with any error, the storage
    at the point of the revert is the storage the call started with. *)
Theorem nothing_written_before_revert env c s log e s' :
  dispatch env c s log = Revert e s' → s' = s.
Proof. run_call c; congruence. Qed.

(** X5. [transferOwnership] by the owner hands the contract over: the
    new owner is the owner, the provider flags are untouched (the new owner
    gets none, the previous one keeps hers), and if the new owner is another
    address the previous owner is from then on refused by every [onlyOwner]
    function. Transferring to oneself changes no state and still publishes
    the notification. *)
Theorem ownership_transfer_hands_over_control env newOwner s :
  msg_sender env = owner s →
  let tx := exec env (TransferOwnership newOwner) s in
  tx.2 = Success [OwnershipTransferred (owner s) newOwner] ∧
  owner tx.1 = newOwner ∧
  isProvider tx.1 = isProvider s ∧
  (newOwner ≠ owner s → ∀ c, ownerOnly c = true →
     exec env c tx.1 = (tx.1, Failure NotOwner)) ∧
  (newOwner = owner s → tx.1 = s).
Proof.
  intros Hown tx.
  assert (tx = (set_owner newOwner s, Success [OwnershipTransferred (owner s) newOwner]))
    as ->.
  { subst tx. unfold exec, dispatch. rewrite transferOwnership_run.
    by replace (msg_sender env =? owner s) with true by (symmetry; by apply Z.eqb_eq). }
  cbn [fst snd]. split_and!; try done.
  - intros Hnew c Hc.
    assert ((msg_sender env =? owner (set_owner newOwner s)) = false) as Hno.
    { apply Z.eqb_neq. simpl. congruence. }
    destruct c; try done; unfold exec, dispatch.
    + by rewrite transferOwnership_run, Hno.
    + by rewrite addProvider_run, Hno.
    + by rewrite removeProvider_run, Hno.
    + by rewrite setPaused_run, Hno.
    + by rewrite setCooldown_run, Hno.
    + by rewrite openBatch_run, Hno.
    + by rewrite closeBatch_run, Hno.
  - intros Heq. rewrite Heq. by destruct s.
Qed.

(** ** Batches *)

(** X6. [openBatch] by the owner, while not paused, moves the current
    batch on by exactly one, publishes the new identifier, leaves the new
    current batch open and touches the closed flag of no other batch (it does
    not close the batch it supersedes). When the counter has reached the
    largest [uint256] the call fails with the arithmetic panic and changes
    nothing. *)
Theorem openBatch_advances_counter env s :
  msg_sender env = owner s →
  paused s = false →
  let tx := exec env OpenBatch s in
  (currentBatchId s < uint256_max →
     tx.2 = Success [BatchOpened (currentBatchId s + 1)] ∧
     currentBatchId tx.1 = currentBatchId s + 1 ∧
     readBool (isBatchClosed tx.1) (currentBatchId tx.1) = false ∧
     ∀ batch, batch ≠ currentBatchId s + 1 →
       readBool (isBatchClosed tx.1) batch = readBool (isBatchClosed s) batch) ∧
  (uint256_max ≤ currentBatchId s → tx = (s, Failure (Panic 17))).
Proof.
  intros Hown Hp tx. subst tx. rewrite exec_openBatch, Hp.
  replace (msg_sender env =? owner s) with true by (symmetry; by apply Z.eqb_eq).
  simpl. split.
  - intros Hlt.
    replace (currentBatchId s + 1 <=? uint256_max) with true
      by (symmetry; apply Z.leb_le; lia).
    simpl. split_and!; try done.
    + by rewrite readBool_insert, decide_True.
    + intros batch Hb. by rewrite readBool_insert, decide_False.
  - intros Hmax.
    by replace (currentBatchId s + 1 <=? uint256_max) with false
      by (symmetry; apply Z.leb_gt; lia).
Qed.

Lemma currentBatchId_call env c s :
  currentBatchId s ≤ currentBatchId (exec env c s).1.
Proof. run_call c; simpl; lia. Qed.

Lemma currentBatchId_range_reachable s :
  reachable s → 0 ≤ currentBatchId s ≤ uint256_max.
Proof.
  intros Hr. induction Hr as [env|s env c Hr IH Hfresh].
  - rewrite deploy_state. simpl. unfold uint256_max. lia.
  - revert IH. run_call c; simpl; try done.
    match goal with H : (_ <=? uint256_max) = true |- _ => apply Z.leb_le in H end.
    lia.
Qed.

(** X7. The batch counter starts at zero, never decreases and stays a
    [uint256]: between any reachable state and any later one,
    [0 <= currentBatchId <= currentBatchId' <= 2^256 - 1]. *)
Theorem batch_counter_never_decreases s s' :
  reachable s →
  steps s s' →
  0 ≤ currentBatchId s ∧
  currentBatchId s ≤ currentBatchId s' ∧
  currentBatchId s' ≤ uint256_max.
Proof.
  intros Hr Hsteps.
  pose proof (currentBatchId_range_reachable s Hr) as [Hlo _].
  pose proof (currentBatchId_range_reachable s' (steps_reachable s s' Hr Hsteps)) as [_ Hhi].
  split_and!; try done.
  clear Hr Hlo Hhi. induction Hsteps as [|s env c s' Hf _ IH]; [lia|].
  pose proof (currentBatchId_call env c s). lia.
Qed.

(** X8. [closeBatch] by the owner, while not paused, accepts the current
    batch and no other: any other identifier fails with [InvalidBatch]. It
    does not ask whether the batch is already closed: closing the current
    batch a second time succeeds, changes nothing and publishes [BatchClosed]
    again. *)
Theorem closeBatch_closes_current_only env s :
  msg_sender env = owner s →
  paused s = false →
  let current := currentBatchId s in
  let closed := set_isBatchClosed current true s in
  (∀ batch, batch ≠ current → exec env (CloseBatch batch) s = (s, Failure InvalidBatch)) ∧
  exec env (CloseBatch current) s = (closed, Success [BatchClosed current]) ∧
  readBool (isBatchClosed closed) current = true ∧
  exec env (CloseBatch current) closed = (closed, Success [BatchClosed current]).
Proof.
  intros Hown Hp current closed.
  assert ((msg_sender env =? owner s) = true) as Hsender by by apply Z.eqb_eq.
  split_and!.
  - intros batch Hb. rewrite exec_closeBatch, Hsender, Hp. simpl.
    by replace (batch =? currentBatchId s) with false by (symmetry; by apply Z.eqb_neq).
  - rewrite exec_closeBatch, Hsender, Hp. simpl. by rewrite Z.eqb_refl.
  - subst closed. simpl. by rewrite readBool_insert, decide_True.
  - rewrite exec_closeBatch. subst closed current. simpl.
    rewrite Hsender, Hp, Z.eqb_refl. simpl.
    unfold set_isBatchClosed. simpl. by rewrite insert_insert_eq.
Qed.

(** X9. Once a batch is closed, no submission into it is ever accepted
    again: in every later state every [submitEncryptedData] naming it fails
    and changes nothing, and for a provider who passes the pause and throttle
    checks the error is [InvalidBatch]. *)
Theorem closed_batch_rejects_submissions s s' batch :
  reachable s →
  readBool (isBatchClosed s) batch = true →
  steps s s' →
  ∀ env encryptedData,
    let tx := exec env (SubmitEncryptedData batch encryptedData) s' in
    succeeded tx.2 = false ∧ tx.1 = s' ∧
    (readBool (isProvider s') (msg_sender env) = true →
     paused s' = false →
     readUint (lastSubmissionTime s') (msg_sender env) + cooldownSeconds s'
       ≤ block_timestamp env →
     block_timestamp env ≤ uint256_max →
     tx.2 = Failure InvalidBatch).
Proof.
  intros Hr Hb Hsteps.
  assert (readBool (isBatchClosed s') batch = true) as Hclosed.
  { induction Hsteps as [|s env c s' Hf _ IH]; [done|].
    apply IH; [by apply reachable_exec|].
    apply closed_stays_closed_call; [by apply closed_are_opened_reachable | done]. }
  intros env encryptedData tx. subst tx.
  rewrite exec_submitEncryptedData. cbv zeta. rewrite Hclosed.
  split_and!.
  - by repeat case_if.
  - by repeat case_if.
  - intros Hprov Hp Hready Hnow. rewrite Hprov, Hp. simpl.
    replace (_ <=? uint256_max) with true by (symmetry; apply Z.leb_le; lia).
    by replace (block_timestamp env <? _) with false by (symmetry; apply Z.ltb_ge; lia).
Qed.

(** ** Decryption requests *)

(** X10. A decryption can be requested for a closed batch only. For a
    provider who passes the pause and throttle checks, the request fails with
    [InvalidBatch] when the closed flag of the batch is not set, in
    particular, in every reachable state, for an identifier above the current
    batch. For a closed batch it succeeds: it stores under the oracle's
    identifier the context (batch, request fingerprint, not processed),
    overwriting whatever was stored there, sets the caller's last request
    time, publishes [DecryptionRequested], and changes no other context, no
    submission time and nothing the owner administrates. *)
Theorem summary_needs_closed_batch env batch s :
  readBool (isProvider s) (msg_sender env) = true →
  paused s = false →
  readUint (lastDecryptionRequestTime s) (msg_sender env) + cooldownSeconds s
    ≤ block_timestamp env →
  block_timestamp env ≤ uint256_max →
  let tx := exec env (RequestBatchSummaryDecryption batch) s in
  (readBool (isBatchClosed s) batch = false → tx = (s, Failure InvalidBatch)) ∧
  (reachable s → currentBatchId s < batch → tx = (s, Failure InvalidBatch)) ∧
  (readBool (isBatchClosed s) batch = true →
     tx.2 = Success [DecryptionRequested (oracle_requestId env) batch] ∧
     readContext (decryptionContexts tx.1) (oracle_requestId env) =
       mkContext batch requestFingerprint false ∧
     oracle_requestId env ∈ issuedRequests tx.1 ∧
     readUint (lastDecryptionRequestTime tx.1) (msg_sender env) = block_timestamp env ∧
     adminState tx.1 = adminState s ∧
     lastSubmissionTime tx.1 = lastSubmissionTime s ∧
     ∀ k, k ≠ oracle_requestId env →
       decryptionContexts tx.1 !! k = decryptionContexts s !! k).
Proof.
  intros Hprov Hp Hready Hnow tx. subst tx.
  rewrite exec_requestBatchSummaryDecryption. cbv zeta. rewrite Hprov, Hp. simpl.
  replace (_ <=? uint256_max) with true by (symmetry; apply Z.leb_le; lia).
  replace (block_timestamp env <? _) with false by (symmetry; apply Z.ltb_ge; lia).
  simpl. split_and!.
  - by intros ->.
  - intros Hr Hlt. destruct (readBool (isBatchClosed s) batch) eqn:Hb; [|done].
    apply (closed_are_opened_reachable s Hr) in Hb. lia.
  - intros ->. simpl. split_and!; try done.
    + by rewrite readContext_insert, decide_True.
    + set_solver.
    + by rewrite readUint_insert, decide_True.
    + intros k Hk. by rewrite lookup_insert_ne.
Qed.

(** X11. The contract does not check the identifier the oracle hands
    it. If a request is answered with an identifier whose context is already
    processed, the context is replaced by a fresh unprocessed one and a
    callback with a valid proof finalizes that identifier once more: that a
    request is finalized once rests on the oracle never reusing an
    identifier. *)
Theorem reused_identifier_resets_context env batch s :
  readBool (isProvider s) (msg_sender env) = true →
  paused s = false →
  readUint (lastDecryptionRequestTime s) (msg_sender env) + cooldownSeconds s
    ≤ block_timestamp env →
  block_timestamp env ≤ uint256_max →
  readBool (isBatchClosed s) batch = true →
  processed (readContext (decryptionContexts s) (oracle_requestId env)) = true →
  let s1 := (exec env (RequestBatchSummaryDecryption batch) s).1 in
  processed (readContext (decryptionContexts s1) (oracle_requestId env)) = false ∧
  ∀ env' cleartexts proof,
    FHE_checkSignatures (oracle_requestId env) cleartexts proof = true →
    (32 ≤ length cleartexts)%nat →
    (exec env' (MyCallback (oracle_requestId env) cleartexts proof) s1).2 =
    Success [DecryptionCompleted (oracle_requestId env) batch
               [bytes_to_uint (take 32 cleartexts)]].
Proof.
  intros Hprov Hp Hready Hnow Hclosed _ s1.
  assert (readContext (decryptionContexts s1) (oracle_requestId env) =
          mkContext batch requestFingerprint false) as Hctx.
  { subst s1. rewrite exec_requestBatchSummaryDecryption. cbv zeta.
    rewrite Hprov, Hp, Hclosed. simpl.
    replace (_ <=? uint256_max) with true by (symmetry; apply Z.leb_le; lia).
    replace (block_timestamp env <? _) with false by (symmetry; apply Z.ltb_ge; lia).
    simpl. by rewrite readContext_insert, decide_True. }
  split; [by rewrite Hctx|].
  intros env' cleartexts proof Hsig Hlen.
  rewrite exec_myCallback. cbv zeta. rewrite Hctx. simpl.
  rewrite request_callback_fingerprint, Z.eqb_refl, Hsig. simpl.
  by replace (length cleartexts <? 32)%nat with false
    by (symmetry; apply Nat.ltb_ge; lia).
Qed.

(** X12. A pending request can always be finalized. In every reachable
    state, paused or not, the callback for an issued identifier whose context
    is not processed yet, delivered by anyone with a proof the oracle's check
    accepts and a cleartext of at least one word, succeeds: it publishes the
    decoded value with the batch recorded at request time, marks the context
    processed, and every further callback for the identifier fails with
    [ReplayAttempt]. *)
Theorem pending_request_can_be_finalized env requestId cleartexts proof s :
  reachable s →
  requestId ∈ issuedRequests s →
  processed (readContext (decryptionContexts s) requestId) = false →
  FHE_checkSignatures requestId cleartexts proof = true →
  (32 ≤ length cleartexts)%nat →
  let tx := exec env (MyCallback requestId cleartexts proof) s in
  tx.2 = Success [DecryptionCompleted requestId
                    (batchId (readContext (decryptionContexts s) requestId))
                    [bytes_to_uint (take 32 cleartexts)]] ∧
  tx.1 = set_processed requestId true s ∧
  ∀ env' cleartexts' proof',
    exec env' (MyCallback requestId cleartexts' proof') tx.1 = (tx.1, Failure ReplayAttempt).
Proof.
  intros Hr Hin Hp Hsig Hlen tx.
  destruct (issued_contexts_bound_reachable s Hr requestId Hin) as (c & Hl & Hh).
  assert (tx = (set_processed requestId true s,
                Success [DecryptionCompleted requestId
                           (batchId (readContext (decryptionContexts s) requestId))
                           [bytes_to_uint (take 32 cleartexts)]])) as ->.
  { subst tx. rewrite exec_myCallback. cbv zeta. rewrite Hp, Hsig.
    unfold readContext at 1. rewrite Hl. simpl.
    rewrite Hh, request_callback_fingerprint, Z.eqb_refl. simpl.
    by replace (length cleartexts <? 32)%nat with false
      by (symmetry; apply Nat.ltb_ge; lia). }
  cbn [fst snd]. split_and!; try done.
  intros env' cleartexts' proof'. rewrite exec_myCallback. cbv zeta.
  by rewrite readContext_set_processed, decide_True.
Qed.

Lemma issued_context_call env c s requestId :
  requestId ∈ issuedRequests s →
  oracle_fresh s env c →
  batchId (readContext (decryptionContexts (exec env c s).1) requestId) =
    batchId (readContext (decryptionContexts s) requestId) ∧
  stateHash (readContext (decryptionContexts (exec env c s).1) requestId) =
    stateHash (readContext (decryptionContexts s) requestId) ∧
  (processed (readContext (decryptionContexts s) requestId) = true →
   processed (readContext (decryptionContexts (exec env c s).1) requestId) = true).
Proof.
  intros Hin Hfresh. run_call c; try done.
  - simpl in Hfresh. rewrite readContext_insert, decide_False; [done|].
    intros Heq. by rewrite Heq in Hfresh.
  - rewrite readContext_insert. by case_decide; subst.
Qed.

(** X13. A context is never deleted and, but for its processed flag,
    never rewritten: for an identifier the oracle has issued, whatever calls
    follow (the oracle issuing fresh identifiers), the batch and the
    fingerprint in its context stay what they are, the identifier stays
    issued, and a processed flag that is set stays set. *)
Theorem issued_context_is_immutable s s' requestId :
  requestId ∈ issuedRequests s →
  steps s s' →
  requestId ∈ issuedRequests s' ∧
  batchId (readContext (decryptionContexts s') requestId) =
    batchId (readContext (decryptionContexts s) requestId) ∧
  stateHash (readContext (decryptionContexts s') requestId) =
    stateHash (readContext (decryptionContexts s) requestId) ∧
  (processed (readContext (decryptionContexts s) requestId) = true →
   processed (readContext (decryptionContexts s') requestId) = true).
Proof.
  intros Hin Hsteps. induction Hsteps as [|s env c s' Hf _ IH]; [done|].
  destruct (issued_context_call env c s requestId Hin Hf) as (Hb & Hh & Hp).
  destruct (IH (issued_grows env c s requestId Hin)) as (Hin' & Hb' & Hh' & Hp').
  split_and!; [done | congruence | congruence | auto].
Qed.

(** X14. The pause switch does not reach the callback: [myCallback] has
    the same outcome and the same effect whether the contract is paused or
    not, so a paused contract still finalizes (and still refuses) responses. *)
Theorem callback_ignores_pause env requestId cleartexts proof flag s :
  exec env (MyCallback requestId cleartexts proof) (set_paused flag s) =
  (set_paused flag (exec env (MyCallback requestId cleartexts proof) s).1,
   (exec env (MyCallback requestId cleartexts proof) s).2).
Proof. rewrite !exec_myCallback. cbv zeta. simpl. by repeat case_if. Qed.

(** X15. All requests carry one fingerprint: in every reachable state
    the contexts of any two issued identifiers store the same fingerprint,
    whatever their batches, callers and times. The fingerprint binds the
    contract's address and the placeholder handle, not the batch. *)
Theorem fingerprint_same_for_all_requests s requestId1 requestId2 :
  reachable s →
  requestId1 ∈ issuedRequests s →
  requestId2 ∈ issuedRequests s →
  stateHash (readContext (decryptionContexts s) requestId1) =
  stateHash (readContext (decryptionContexts s) requestId2).
Proof.
  intros Hr H1 H2.
  destruct (issued_contexts_bound_reachable s Hr _ H1) as (c1 & Hl1 & Hh1).
  destruct (issued_contexts_bound_reachable s Hr _ H2) as (c2 & Hl2 & Hh2).
  unfold readContext. rewrite Hl1, Hl2. simpl. congruence.
Qed.

(** ** Throttle clocks *)

Lemma submit_state env batch encryptedData s :
  (exec env (SubmitEncryptedData batch encryptedData) s).1 = s ∨
  (exec env (SubmitEncryptedData batch encryptedData) s).1 =
    set_lastSubmissionTime (msg_sender env) (block_timestamp env) s.
Proof. rewrite exec_submitEncryptedData. cbv zeta. repeat case_if; auto. Qed.

Lemma request_state env batch s :
  (exec env (RequestBatchSummaryDecryption batch) s).1 = s ∨
  (exec env (RequestBatchSummaryDecryption batch) s).1 =
    set_decryptionContext (oracle_requestId env)
      (mkContext batch requestFingerprint false)
      (set_issued (oracle_requestId env)
         (set_lastDecryptionRequestTime (msg_sender env) (block_timestamp env) s)).
Proof. rewrite exec_requestBatchSummaryDecryption. cbv zeta. repeat case_if; auto. Qed.

(** X16. The two throttle clocks are separate, and each is per caller.
    A submission, accepted or not, never changes the outcome of a decryption
    request that follows it, nor a request that of a submission; and a call
    by one provider never changes the outcome of the same kind of call by
    another. *)
Theorem throttle_channels_are_independent env1 env2 batch1 data1 batch2 data2 s :
  (exec env2 (RequestBatchSummaryDecryption batch2)
     (exec env1 (SubmitEncryptedData batch1 data1) s).1).2 =
  (exec env2 (RequestBatchSummaryDecryption batch2) s).2 ∧
  (exec env2 (SubmitEncryptedData batch2 data2)
     (exec env1 (RequestBatchSummaryDecryption batch1) s).1).2 =
  (exec env2 (SubmitEncryptedData batch2 data2) s).2 ∧
  (msg_sender env1 ≠ msg_sender env2 →
   (exec env2 (SubmitEncryptedData batch2 data2)
      (exec env1 (SubmitEncryptedData batch1 data1) s).1).2 =
   (exec env2 (SubmitEncryptedData batch2 data2) s).2 ∧
   (exec env2 (RequestBatchSummaryDecryption batch2)
      (exec env1 (RequestBatchSummaryDecryption batch1) s).1).2 =
   (exec env2 (RequestBatchSummaryDecryption batch2) s).2).
Proof.
  split_and!.
  - destruct (submit_state env1 batch1 data1 s) as [-> | ->]; [done|].
    rewrite !exec_requestBatchSummaryDecryption. cbv zeta. simpl. by repeat case_if.
  - destruct (request_state env1 batch1 s) as [-> | ->]; [done|].
    rewrite !exec_submitEncryptedData. cbv zeta. simpl. by repeat case_if.
  - intros Hne. split.
    + destruct (submit_state env1 batch1 data1 s) as [-> | ->]; [done|].
      rewrite !exec_submitEncryptedData. cbv zeta. simpl.
      rewrite readUint_insert, decide_False by done. by repeat case_if.
    + destruct (request_state env1 batch1 s) as [-> | ->]; [done|].
      rewrite !exec_requestBatchSummaryDecryption. cbv zeta. simpl.
      rewrite readUint_insert, decide_False by done. by repeat case_if.
Qed.

(** ** Decoding the cleartext *)

Lemma bytes_fold_bound (bs : list byte) (acc : Z) :
  0 ≤ acc →
  0 ≤ fold_left (fun a b => a * 256 + Z.of_N (Byte.to_N b)) bs acc
    < (acc + 1) * 256 ^ Z.of_nat (length bs).
Proof.
  revert acc. induction bs as [|b bs IH]; intros acc Hacc.
  - simpl. lia.
  - cbn [fold_left length].
    pose proof (Byte.to_N_bounded b) as Hb.
    assert (0 ≤ Z.of_N (Byte.to_N b) ≤ 255) as Hb' by lia.
    destruct (IH (acc * 256 + Z.of_N (Byte.to_N b)) ltac:(lia)) as [Hlo Hhi].
    split; [done|].
    rewrite Nat2Z.inj_succ, Z.pow_succ_r by lia.
    assert (0 < 256 ^ Z.of_nat (length bs)) by (apply Z.pow_pos_nonneg; lia).
    nia.
Qed.

Lemma bytes_to_uint_bound (bs : list byte) :
  0 ≤ bytes_to_uint bs < 256 ^ Z.of_nat (length bs).
Proof.
  unfold bytes_to_uint.
  pose proof (bytes_fold_bound bs 0 ltac:(lia)) as H. lia.
Qed.

(** X17. Decoding the cleartext: a payload shorter than one 32-byte word
    makes the decoding revert; a longer one decodes to a value in the
    [uint256] range that is read from the first word alone, whatever bytes
    follow it. *)
Theorem cleartext_decoding (data : list byte) s log :
  ((length data < 32)%nat → abi_decode_uint256 data s log = Revert AbiDecodeFailure s) ∧
  ((32 ≤ length data)%nat →
   ∃ v, abi_decode_uint256 data s log = Return v s log ∧
        0 ≤ v ≤ uint256_max ∧
        ∀ extra, abi_decode_uint256 (data ++ extra) s log = Return v s log).
Proof.
  unfold abi_decode_uint256. split.
  - intros Hlen. by replace (length data <? 32)%nat with true
      by (symmetry; apply Nat.ltb_lt; lia).
  - intros Hlen. eexists. split; [|split].
    + by replace (length data <? 32)%nat with false
        by (symmetry; apply Nat.ltb_ge; lia).
    + pose proof (bytes_to_uint_bound (take 32 data)) as Hb.
      rewrite length_take, Nat.min_l in Hb by lia.
      unfold uint256_max. change (256 ^ Z.of_nat 32) with (2 ^ 256) in Hb. lia.
    + intros extra. rewrite length_app.
      replace (length data + length extra <? 32)%nat with false
        by (symmetry; apply Nat.ltb_ge; lia).
      by rewrite take_app_le by lia.
Qed.

(** ** The registry and the pause switch *)

(** X18. [addProvider] and [removeProvider] by the owner set and clear
    the flag of the address they name and of no other; removing after adding
    leaves the address no provider, adding after removing leaves it one; the
    owner is unchanged, and may clear her own flag. *)
Theorem provider_registry_updates_one_address env provider s :
  msg_sender env = owner s →
  let added := (exec env (AddProvider provider) s).1 in
  let removed := (exec env (RemoveProvider provider) s).1 in
  readBool (isProvider added) provider = true ∧
  readBool (isProvider removed) provider = false ∧
  (∀ other, other ≠ provider →
     readBool (isProvider added) other = readBool (isProvider s) other ∧
     readBool (isProvider removed) other = readBool (isProvider s) other) ∧
  readBool (isProvider (exec env (RemoveProvider provider) added).1) provider = false ∧
  readBool (isProvider (exec env (AddProvider provider) removed).1) provider = true ∧
  owner added = owner s ∧ owner removed = owner s.
Proof.
  intros Hown added removed.
  assert ((msg_sender env =? owner s) = true) as Hsender by by apply Z.eqb_eq.
  assert (added = if readBool (isProvider s) provider then s
                  else set_isProvider provider true s) as Hadded.
  { subst added. rewrite exec_addProvider, Hsender. by destruct (readBool _ _). }
  assert (removed = if readBool (isProvider s) provider
                    then set_isProvider provider false s else s) as Hremoved.
  { subst removed. rewrite exec_removeProvider, Hsender. by destruct (readBool _ _). }
  clearbody added removed. subst added removed.
  rewrite exec_removeProvider, exec_addProvider.
  destruct (readBool (isProvider s) provider) eqn:Hp; simpl; rewrite Hsender, ?Hp; simpl;
    rewrite ?readBool_insert, ?decide_True by done; simpl;
    rewrite ?readBool_insert, ?decide_True by done;
    (split_and!; try done;
     intros other Hother; by rewrite ?readBool_insert, ?decide_False by done).
Qed.

(** X19. [setPaused] by the owner always publishes [PauseToggled], also
    when the flag already has the value set, and touches nothing but the
    flag: pausing and then setting the flag back returns the contract to
    exactly the state it was in, throttle clocks, batches and pending
    requests included. *)
Theorem pause_round_trip env flag s :
  msg_sender env = owner s →
  let tx1 := exec env (SetPaused flag) s in
  let tx2 := exec env (SetPaused (paused s)) tx1.1 in
  tx1.2 = Success [PauseToggled flag] ∧
  paused tx1.1 = flag ∧
  tx2.2 = Success [PauseToggled (paused s)] ∧
  tx2.1 = s.
Proof.
  intros Hown tx1 tx2.
  assert ((msg_sender env =? owner s) = true) as Hsender by by apply Z.eqb_eq.
  assert (tx1 = (set_paused flag s, Success [PauseToggled flag])) as H1.
  { subst tx1. unfold exec, dispatch. by rewrite setPaused_run, Hsender. }
  assert (tx2 = (set_paused (paused s) (set_paused flag s),
                 Success [PauseToggled (paused s)])) as H2.
  { subst tx2. rewrite H1. unfold exec, dispatch. cbn [fst].
    rewrite setPaused_run. simpl. by rewrite Hsender. }
  rewrite H1, H2. cbn [fst snd]. split_and!; try done. by destruct s.
Qed.

End Properties.

(** * The properties on the sample runs *)

(** The sample runs are runs of the contract: the oracle's answers 7 and 8
    are fresh when they are given. *)
Lemma s_requested_reachable : reachable (P := samplePlatform) s_requested.
Proof. apply reachable_run_calls. by vm_compute. Qed.

Lemma s_finalized_reachable : reachable (P := samplePlatform) s_finalized.
Proof. apply reachable_run_calls. by vm_compute. Qed.

Lemma s_later_steps : steps (P := samplePlatform) s_finalized s_later.
Proof. apply steps_run_calls. by vm_compute. Qed.

(** Request 7 is finalized in [s_finalized]; four calls later its context
    is the same and its callback is refused, whatever the payload. *)
Lemma processed_request_is_never_processed_again_witness :
  7 ∈ issuedRequests s_finalized ∧
  processed (readContext (decryptionContexts s_finalized) 7) = true ∧
  decryptionContexts s_later !! 7 = decryptionContexts s_finalized !! 7 ∧
  ∀ env cleartexts proof,
    exec (P := samplePlatform) env (MyCallback 7 cleartexts proof) s_later =
    (s_later, Failure ReplayAttempt).
Proof.
  assert (7 ∈ issuedRequests s_finalized) as Hin.
  { apply (bool_decide_unpack _). by vm_compute. }
  assert (processed (readContext (decryptionContexts s_finalized) 7) = true) as Hp.
  { by vm_compute. }
  split; [exact Hin|]. split; [exact Hp|].
  exact (processed_request_is_never_processed_again (P := samplePlatform)
           s_finalized s_later 7 Hin Hp s_later_steps).
Defined.

(** Request 9 was never made: its callback is stopped by the fingerprint
    check. *)
Lemma callback_on_missing_context_witness :
  decryptionContexts s_requested !! 9 = None ∧
  callbackFingerprint (P := samplePlatform) ≠ 0 ∧
  exec (P := samplePlatform) (at_ bob 130 0) (MyCallback 9 cleartext42 [x01]) s_requested =
  (s_requested, Failure StateMismatch).
Proof.
  assert (decryptionContexts s_requested !! 9 = None) as Hnone by by vm_compute.
  assert (callbackFingerprint (P := samplePlatform) ≠ 0) as Hfp by by vm_compute.
  split; [exact Hnone|]. split; [exact Hfp|].
  exact (proj2 (callback_on_missing_context (P := samplePlatform)
                  (at_ bob 130 0) 9 cleartext42 [x01] s_requested Hnone) Hfp).
Defined.

(** C2, against the claim: no context is stored under request 9, and the
    callback for it fails with [StateMismatch], not with [ReplayAttempt]. *)
Lemma callback_on_missing_context_counterexample :
  decryptionContexts s_requested !! 9 = None ∧
  (exec (P := samplePlatform) (at_ bob 130 0)
     (MyCallback 9 cleartext42 [x01]) s_requested).2 = Failure StateMismatch ∧
  (exec (P := samplePlatform) (at_ bob 130 0)
     (MyCallback 9 cleartext42 [x01]) s_requested).2 ≠ Failure ReplayAttempt.
Proof. by vm_compute. Qed.

(** The context of request 7 holds the fingerprint the callback computes. *)
Lemma request_fingerprint_matches_callback_witness :
  7 ∈ issuedRequests s_requested ∧
  stateHash (readContext (decryptionContexts s_requested) 7) =
    callbackFingerprint (P := samplePlatform) ∧
  ∀ env cleartexts proof,
    (exec (P := samplePlatform) env (MyCallback 7 cleartexts proof) s_requested).2
    ≠ Failure StateMismatch.
Proof.
  assert (7 ∈ issuedRequests s_requested) as Hin.
  { apply (bool_decide_unpack _). by vm_compute. }
  split; [exact Hin|].
  exact (proj2 (proj2 (request_fingerprint_matches_callback (P := samplePlatform)
                         s_requested 7 s_requested_reachable Hin))).
Defined.

Lemma s_deployed_reachable : reachable (P := samplePlatform) s_deployed.
Proof. apply reachable_deploy. Qed.

(** Right after deployment, batch 7 is above the current batch 0 and takes
    alice's submission. *)
Lemma submission_checks_only_the_closed_flag_witness :
  readBool (isProvider s_deployed) alice = true ∧
  paused s_deployed = false ∧
  currentBatchId s_deployed = 0 ∧
  exec (P := samplePlatform) (at_ alice 100 0) (SubmitEncryptedData 7 99) s_deployed =
  (set_lastSubmissionTime alice 100 s_deployed, Success [EncryptedDataSubmitted alice 7 99]).
Proof.
  assert (readBool (isProvider s_deployed) (msg_sender (at_ alice 100 0)) = true)
    as Hprov by by vm_compute.
  assert (paused s_deployed = false) as Hp by by vm_compute.
  assert (readUint (lastSubmissionTime s_deployed) (msg_sender (at_ alice 100 0))
            + cooldownSeconds s_deployed ≤ block_timestamp (at_ alice 100 0))
    as Hready by by vm_compute.
  assert (block_timestamp (at_ alice 100 0) ≤ uint256_max) as Hnow by by vm_compute.
  split; [exact Hprov|]. split; [exact Hp|]. split; [reflexivity|].
  destruct (submission_checks_only_the_closed_flag (P := samplePlatform)
              (at_ alice 100 0) 7 99 s_deployed Hprov Hp Hready Hnow)
    as (_ & Haccept & Hunset).
  apply Haccept. apply Hunset; [exact s_deployed_reachable | by vm_compute].
Defined.

(** C5, against the claim: right after deployment no batch has been
    opened (the current identifier is 0), and a submission into batch 7 by a
    provider who is not throttled, while not paused, is accepted. *)
Lemma submission_checks_only_the_closed_flag_counterexample :
  currentBatchId s_deployed = 0 ∧
  readBool (isProvider s_deployed) alice = true ∧
  paused s_deployed = false ∧
  (100 <? readUint (lastSubmissionTime s_deployed) alice + cooldownSeconds s_deployed) = false ∧
  (exec (P := samplePlatform) (at_ alice 100 0) (SubmitEncryptedData 7 99) s_deployed).2 =
  Success [EncryptedDataSubmitted alice 7 99].
Proof. by vm_compute. Qed.

(** Batch 1, closed in [s_finalized], is closed in [s_later], after batch
    2 has been opened. *)
Lemma closed_batch_never_reopens_witness :
  readBool (isBatchClosed s_finalized) 1 = true ∧
  readBool (isBatchClosed s_later) 1 = true.
Proof.
  assert (readBool (isBatchClosed s_finalized) 1 = true) as Hclosed by by vm_compute.
  split; [exact Hclosed|].
  exact (closed_batch_never_reopens (P := samplePlatform) s_finalized s_later 1
           s_finalized_reachable Hclosed s_later_steps).
Defined.



(** While paused, alice (owner and provider) is answered [Paused] by
    [openBatch] and [submitEncryptedData], and can still add bob. *)
Lemma paused_blocks_operations_not_administration_witness :
  paused s_paused = true ∧
  exec (P := samplePlatform) (at_ alice 50 0) OpenBatch s_paused = (s_paused, Failure Paused) ∧
  (∀ batch data,
     exec (P := samplePlatform) (at_ alice 50 0) (SubmitEncryptedData batch data) s_paused =
     (s_paused, Failure Paused)) ∧
  succeeded (exec (P := samplePlatform) (at_ alice 50 0) (AddProvider bob) s_paused).2 = true.
Proof.
  assert (paused s_paused = true) as Hp by by vm_compute.
  destruct (paused_blocks_operations_not_administration (P := samplePlatform)
              (at_ alice 50 0) s_paused Hp)
    as (_ & Howner & Hprovider & _ & _ & Hadmin).
  split; [exact Hp|]. split.
  - apply Howner. by vm_compute.
  - split.
    + intros batch data. apply (Hprovider ltac:(by vm_compute) batch).
    + destruct (Hadmin ltac:(by vm_compute)) as (_ & Hadd & _).
      apply (Hadd bob).
Defined.

(** C8, against the claim: while the contract is paused, [openBatch]
    called by bob, who is not the owner, fails with [NotOwner], and his
    submission, he being no provider, fails with [NotProvider]; neither fails
    with [Paused]. *)
Lemma paused_blocks_operations_not_administration_counterexample :
  paused s_paused = true ∧
  (exec (P := samplePlatform) (at_ bob 50 0) OpenBatch s_paused).2 = Failure NotOwner ∧
  (exec (P := samplePlatform) (at_ bob 50 0) (SubmitEncryptedData 1 11) s_paused).2 =
    Failure NotProvider.
Proof. by vm_compute. Qed.

(** Alice adds bob twice: the second call is a no-op and one notification
    is published in all. *)
Lemma provider_toggles_are_idempotent_witness :
  msg_sender (at_ alice 50 0) = owner s_deployed ∧
  exec (P := samplePlatform) (at_ alice 50 0) (AddProvider bob)
    (exec (P := samplePlatform) (at_ alice 50 0) (AddProvider bob) s_deployed).1 =
  ((exec (P := samplePlatform) (at_ alice 50 0) (AddProvider bob) s_deployed).1, Success []) ∧
  countProviderAdded bob
    (published (exec (P := samplePlatform) (at_ alice 50 0) (AddProvider bob) s_deployed).2 ++
     published (exec (P := samplePlatform) (at_ alice 50 0) (AddProvider bob)
       (exec (P := samplePlatform) (at_ alice 50 0) (AddProvider bob) s_deployed).1).2) = 1%nat.
Proof.
  assert (msg_sender (at_ alice 50 0) = owner s_deployed) as Hown by by vm_compute.
  destruct (provider_toggles_are_idempotent (P := samplePlatform)
              (at_ alice 50 0) bob s_deployed Hown) as (_ & _ & Hsecond & _ & Hcount).
  split; [exact Hown|]. split; [exact Hsecond|]. exact Hcount.
Defined.

(** * The further properties on the sample runs *)

Lemma s_later_reachable : reachable (P := samplePlatform) s_later.
Proof. exact (steps_reachable _ _ s_finalized_reachable s_later_steps). Qed.

(** Bob is not the owner: he may not set the cooldown. *)
Lemma non_owner_is_refused_witness :
  msg_sender (at_ bob 50 0) ≠ owner s_deployed ∧
  exec (P := samplePlatform) (at_ bob 50 0) (SetCooldown 0) s_deployed =
  (s_deployed, Failure NotOwner).
Proof.
  assert (msg_sender (at_ bob 50 0) ≠ owner s_deployed) as Hown by by vm_compute.
  split; [exact Hown|].
  exact (non_owner_is_refused (P := samplePlatform) (at_ bob 50 0) (SetCooldown 0)
           s_deployed Hown eq_refl).
Defined.

(** Bob is no provider: he may not submit. *)
Lemma non_provider_is_refused_witness :
  readBool (isProvider s_deployed) (msg_sender (at_ bob 100 0)) = false ∧
  exec (P := samplePlatform) (at_ bob 100 0) (SubmitEncryptedData 1 11) s_deployed =
  (s_deployed, Failure NotProvider).
Proof.
  assert (readBool (isProvider s_deployed) (msg_sender (at_ bob 100 0)) = false)
    as Hprov by by vm_compute.
  split; [exact Hprov|].
  exact (non_provider_is_refused (P := samplePlatform) (at_ bob 100 0)
           (SubmitEncryptedData 1 11) s_deployed Hprov eq_refl).
Defined.

(** Bob delivers the callback of request 7: it is accepted, and nothing
    the owner administrates has changed. *)
Lemma only_owner_changes_administration_witness :
  msg_sender (at_ bob 130 0) ≠ owner s_requested ∧
  succeeded (exec (P := samplePlatform) (at_ bob 130 0)
               (MyCallback 7 cleartext42 [x01]) s_requested).2 = true ∧
  adminState (exec (P := samplePlatform) (at_ bob 130 0)
                (MyCallback 7 cleartext42 [x01]) s_requested).1 =
  adminState s_requested.
Proof.
  assert (msg_sender (at_ bob 130 0) ≠ owner s_requested) as Hown by by vm_compute.
  split; [exact Hown|]. split; [by vm_compute|].
  exact (only_owner_changes_administration (P := samplePlatform) (at_ bob 130 0)
           (MyCallback 7 cleartext42 [x01]) s_requested Hown).
Defined.

(** Alice's submission into the closed batch 0 is stopped by the last
    check of [submitEncryptedData]; her submission time was not written. *)
Lemma nothing_written_before_revert_witness :
  ∃ s', dispatch (P := samplePlatform) (at_ alice 100 0) (SubmitEncryptedData 0 11)
          s_zero_closed [] = Revert InvalidBatch s' ∧
        s' = s_zero_closed.
Proof.
  eexists. split; [by vm_compute|].
  apply (nothing_written_before_revert (P := samplePlatform) (at_ alice 100 0)
           (SubmitEncryptedData 0 11) s_zero_closed [] InvalidBatch).
  by vm_compute.
Defined.

(** Alice hands the contract to bob, and may no longer pause it. *)
Lemma ownership_transfer_hands_over_control_witness :
  msg_sender (at_ alice 50 0) = owner s_deployed ∧
  owner (exec (P := samplePlatform) (at_ alice 50 0) (TransferOwnership bob) s_deployed).1
    = bob ∧
  exec (P := samplePlatform) (at_ alice 50 0) (SetPaused true)
    (exec (P := samplePlatform) (at_ alice 50 0) (TransferOwnership bob) s_deployed).1 =
  ((exec (P := samplePlatform) (at_ alice 50 0) (TransferOwnership bob) s_deployed).1,
   Failure NotOwner).
Proof.
  assert (msg_sender (at_ alice 50 0) = owner s_deployed) as Hown by by vm_compute.
  destruct (ownership_transfer_hands_over_control (P := samplePlatform)
              (at_ alice 50 0) bob s_deployed Hown) as (_ & Hnew & _ & Hold & _).
  split; [exact Hown|]. split; [exact Hnew|].
  apply Hold; [by vm_compute | reflexivity].
Defined.

(** The first [openBatch] after deployment opens batch 1. *)
Lemma openBatch_advances_counter_witness :
  msg_sender (at_ alice 10 0) = owner s_deployed ∧
  paused s_deployed = false ∧
  currentBatchId (exec (P := samplePlatform) (at_ alice 10 0) OpenBatch s_deployed).1 = 1.
Proof.
  assert (msg_sender (at_ alice 10 0) = owner s_deployed) as Hown by by vm_compute.
  assert (paused s_deployed = false) as Hp by by vm_compute.
  destruct (proj1 (openBatch_advances_counter (P := samplePlatform)
              (at_ alice 10 0) s_deployed Hown Hp) ltac:(by vm_compute))
    as (_ & Hcur & _).
  split; [exact Hown|]. split; [exact Hp|]. exact Hcur.
Defined.

(** Between [s_finalized] and [s_later] the counter went from 1 to 2. *)
Lemma batch_counter_never_decreases_witness :
  0 ≤ currentBatchId s_finalized ∧
  currentBatchId s_finalized ≤ currentBatchId s_later ∧
  currentBatchId s_later ≤ uint256_max.
Proof.
  exact (batch_counter_never_decreases (P := samplePlatform) s_finalized s_later
           s_finalized_reachable s_later_steps).
Defined.

(** Right after deployment the current batch is 0: batch 3 cannot be
    closed. *)
Lemma closeBatch_closes_current_only_witness :
  msg_sender (at_ alice 10 0) = owner s_deployed ∧
  paused s_deployed = false ∧
  exec (P := samplePlatform) (at_ alice 10 0) (CloseBatch 3) s_deployed =
  (s_deployed, Failure InvalidBatch).
Proof.
  assert (msg_sender (at_ alice 10 0) = owner s_deployed) as Hown by by vm_compute.
  assert (paused s_deployed = false) as Hp by by vm_compute.
  destruct (closeBatch_closes_current_only (P := samplePlatform)
              (at_ alice 10 0) s_deployed Hown Hp) as (Hother & _).
  split; [exact Hown|]. split; [exact Hp|].
  apply Hother. by vm_compute.
Defined.

(** Batch 1 is closed in [s_finalized]: in [s_later] alice's submission
    into it is refused. *)
Lemma closed_batch_rejects_submissions_witness :
  readBool (isBatchClosed s_finalized) 1 = true ∧
  succeeded (exec (P := samplePlatform) (at_ alice 300 0)
               (SubmitEncryptedData 1 12) s_later).2 = false.
Proof.
  assert (readBool (isBatchClosed s_finalized) 1 = true) as Hclosed by by vm_compute.
  split; [exact Hclosed|].
  exact (proj1 (closed_batch_rejects_submissions (P := samplePlatform)
                  s_finalized s_later 1 s_finalized_reachable Hclosed s_later_steps
                  (at_ alice 300 0) 12)).
Defined.

(** In [s_requested] batch 1 is closed and batch 5 was never opened: at
    time 200 alice may request the summary of the first, not of the second. *)
Lemma summary_needs_closed_batch_witness :
  readBool (isProvider s_requested) (msg_sender (at_ alice 200 9)) = true ∧
  paused s_requested = false ∧
  exec (P := samplePlatform) (at_ alice 200 9) (RequestBatchSummaryDecryption 5) s_requested =
    (s_requested, Failure InvalidBatch) ∧
  (exec (P := samplePlatform) (at_ alice 200 9)
     (RequestBatchSummaryDecryption 1) s_requested).2 = Success [DecryptionRequested 9 1].
Proof.
  assert (readBool (isProvider s_requested) (msg_sender (at_ alice 200 9)) = true)
    as Hprov by by vm_compute.
  assert (paused s_requested = false) as Hp by by vm_compute.
  assert (readUint (lastDecryptionRequestTime s_requested) (msg_sender (at_ alice 200 9))
            + cooldownSeconds s_requested ≤ block_timestamp (at_ alice 200 9))
    as Hready by by vm_compute.
  assert (block_timestamp (at_ alice 200 9) ≤ uint256_max) as Hnow by by vm_compute.
  split; [exact Hprov|]. split; [exact Hp|]. split.
  - destruct (summary_needs_closed_batch (P := samplePlatform) (at_ alice 200 9) 5
                s_requested Hprov Hp Hready Hnow) as (_ & Habove & _).
    apply Habove; [exact s_requested_reachable | by vm_compute].
  - destruct (summary_needs_closed_batch (P := samplePlatform) (at_ alice 200 9) 1
                s_requested Hprov Hp Hready Hnow) as (_ & _ & Hclosed).
    apply Hclosed. by vm_compute.
Defined.

(** Request 7 is processed in [s_finalized]. Were the oracle to answer a
    new request with 7 again, the callback for 7 would be accepted again. *)
Lemma reused_identifier_resets_context_witness :
  processed (readContext (decryptionContexts s_finalized) 7) = true ∧
  (exec (P := samplePlatform) (at_ bob 210 0) (MyCallback 7 cleartext42 [x01])
     (exec (P := samplePlatform) (at_ alice 200 7)
        (RequestBatchSummaryDecryption 1) s_finalized).1).2 =
  Success [DecryptionCompleted 7 1 [bytes_to_uint (take 32 cleartext42)]].
Proof.
  assert (processed (readContext (decryptionContexts s_finalized) 7) = true)
    as Hdone by by vm_compute.
  split; [exact Hdone|].
  apply (proj2 (reused_identifier_resets_context (P := samplePlatform) (at_ alice 200 7) 1
                  s_finalized ltac:(by vm_compute) ltac:(by vm_compute)
                  ltac:(by vm_compute) ltac:(by vm_compute) ltac:(by vm_compute) Hdone)
           (at_ bob 210 0) cleartext42 [x01]).
  - by vm_compute.
  - by vm_compute.
Defined.

(** Request 7 is pending in [s_requested]: bob delivers the cleartext 42
    with a proof the sample oracle accepts. *)
Lemma pending_request_can_be_finalized_witness :
  7 ∈ issuedRequests s_requested ∧
  processed (readContext (decryptionContexts s_requested) 7) = false ∧
  (exec (P := samplePlatform) (at_ bob 130 0) (MyCallback 7 cleartext42 [x01]) s_requested).2 =
  Success [DecryptionCompleted 7 1 [42]].
Proof.
  assert (7 ∈ issuedRequests s_requested) as Hin.
  { apply (bool_decide_unpack _). by vm_compute. }
  assert (processed (readContext (decryptionContexts s_requested) 7) = false)
    as Hp by by vm_compute.
  split; [exact Hin|]. split; [exact Hp|].
  exact (proj1 (pending_request_can_be_finalized (P := samplePlatform) (at_ bob 130 0) 7
                  cleartext42 [x01] s_requested s_requested_reachable Hin Hp
                  ltac:(by vm_compute) ltac:(by vm_compute))).
Defined.

(** The context of request 7 names batch 1 in [s_finalized] and still
    does in [s_later]. *)
Lemma issued_context_is_immutable_witness :
  7 ∈ issuedRequests s_finalized ∧
  7 ∈ issuedRequests s_later ∧
  batchId (readContext (decryptionContexts s_later) 7) =
  batchId (readContext (decryptionContexts s_finalized) 7).
Proof.
  assert (7 ∈ issuedRequests s_finalized) as Hin.
  { apply (bool_decide_unpack _). by vm_compute. }
  destruct (issued_context_is_immutable (P := samplePlatform) s_finalized s_later 7
              Hin s_later_steps) as (Hin' & Hbatch & _).
  split; [exact Hin|]. split; [exact Hin'|]. exact Hbatch.
Defined.

(** In [s_later] request 7 is for batch 1 and request 8 for batch 2: the
    two contexts hold the same fingerprint. *)
Lemma fingerprint_same_for_all_requests_witness :
  batchId (readContext (decryptionContexts s_later) 7) = 1 ∧
  batchId (readContext (decryptionContexts s_later) 8) = 2 ∧
  stateHash (readContext (decryptionContexts s_later) 7) =
  stateHash (readContext (decryptionContexts s_later) 8).
Proof.
  split; [by vm_compute|]. split; [by vm_compute|].
  apply (fingerprint_same_for_all_requests (P := samplePlatform) s_later 7 8
           s_later_reachable).
  - apply (bool_decide_unpack _). by vm_compute.
  - apply (bool_decide_unpack _). by vm_compute.
Defined.

(** Alice makes bob a provider; her own flag is untouched. *)
Lemma provider_registry_updates_one_address_witness :
  msg_sender (at_ alice 50 0) = owner s_deployed ∧
  readBool (isProvider (exec (P := samplePlatform) (at_ alice 50 0)
                          (AddProvider bob) s_deployed).1) bob = true ∧
  readBool (isProvider (exec (P := samplePlatform) (at_ alice 50 0)
                          (AddProvider bob) s_deployed).1) alice =
  readBool (isProvider s_deployed) alice.
Proof.
  assert (msg_sender (at_ alice 50 0) = owner s_deployed) as Hown by by vm_compute.
  destruct (provider_registry_updates_one_address (P := samplePlatform)
              (at_ alice 50 0) bob s_deployed Hown) as (Hadded & _ & Hother & _).
  split; [exact Hown|]. split; [exact Hadded|].
  apply (Hother alice). by vm_compute.
Defined.

(** Alice pauses the deployed contract and lifts the pause: the state is
    the deployed one again. *)
Lemma pause_round_trip_witness :
  msg_sender (at_ alice 50 0) = owner s_deployed ∧
  (exec (P := samplePlatform) (at_ alice 50 0) (SetPaused (paused s_deployed))
     (exec (P := samplePlatform) (at_ alice 50 0) (SetPaused true) s_deployed).1).1 =
  s_deployed.
Proof.
  assert (msg_sender (at_ alice 50 0) = owner s_deployed) as Hown by by vm_compute.
  destruct (pause_round_trip (P := samplePlatform) (at_ alice 50 0) true s_deployed Hown)
    as (_ & _ & _ & Hback).
  split; [exact Hown|]. exact Hback.
Defined.
